(** * clima-app: the weather screen of [src/app/(tabs)/index.tsx]

    A shallow embedding of the weather screen component [WeatherScreen]:
    its pure transforms ([compactForecast], [processHourlyForecast],
    [displayTemp], [displaySpeed], [getWeatherIcon], [getWeatherImage]),
    its event handlers ([initByGeolocation], [searchByCity], [refreshData],
    [fetchAll], [toggleUnits]) and the screen selection of its render
    function.

    Conventions of the embedding.
    - A JavaScript [number] that holds a temperature, a speed or a
      coordinate is an exact rational ([Q]): JSON only carries finite
      numbers, and [Math.min], [Math.max], comparisons and [toFixed] act on
      the exact value of a double.  Rounding errors of the double
      multiplications in the unit conversions are not modelled.
    - Timestamps ([dt], seconds since the epoch) are integers ([Z]).
    - [Date] depends on the device's time zone: the two methods the screen
      calls are fields of the class [DateRuntime]; [UTC] is the instance of
      a device whose zone is UTC.
    - The handlers are [async] functions over React state; they are
      programs of the monad [Handler], which threads the component state,
      logs every call that leaves the component and carries exceptions. *)

From Stdlib Require Import ZArith QArith Qround Qminmax Lqa.
From Stdlib Require Import List String Ascii DecimalString.
From Stdlib Require Import Sorting Permutation Lia Bool.
Import ListNotations.

Local Open Scope Z_scope.

(** ** The JavaScript built-ins the screen uses *)

Module Math.

(** [Math.round]: the nearest integer, a tie going up. *)
Definition round (x : Q) : Z := Qfloor (x + (1 # 2)).

(** [Math.min] and [Math.max] of two numbers. *)
Definition min (a b : Q) : Q := Qmin a b.
Definition max (a b : Q) : Q := Qmax a b.

End Math.

(** [String(n)] of an integer. *)
Definition Number_toString (n : Z) : string :=
  NilZero.string_of_int (Z.to_int n).

(** [x.toFixed(1)] below 1e21: the sign is split off, the magnitude is
    rounded to the nearest tenth (a tie going to the larger tenth). *)
Definition toFixed1 (x : Q) : string :=
  let sign := if Qle_bool 0 x then EmptyString else "-"%string in
  let mag := if Qle_bool 0 x then x else Qopp x in
  let n := Qfloor (mag * inject_Z 10 + (1 # 2)) in
  (sign ++ Number_toString (n / 10) ++ "." ++ Number_toString (n mod 10))%string.

(** A property read of an object literal, [map[key]].  The literal's own
    properties come first; a key it does not own is looked up on
    [Object.prototype], whose members are functions (and, for [__proto__],
    the prototype object itself): all truthy. *)
Definition objectPrototypeMembers : list string :=
  [ "constructor"; "hasOwnProperty"; "isPrototypeOf"; "propertyIsEnumerable";
    "toLocaleString"; "toString"; "valueOf"; "__proto__";
    "__defineGetter__"; "__defineSetter__"; "__lookupGetter__";
    "__lookupSetter__" ]%string.

Inductive Property (A : Type) : Type :=
| Own (value : A)
| Inherited (member : string)
| Undefined.
Arguments Own {A} value.
Arguments Inherited {A} member.
Arguments Undefined {A}.

Fixpoint ownProperty {A : Type} (literal : list (string * A)) (key : string)
  : option A :=
  match literal with
  | [] => None
  | (k, v) :: rest => if String.eqb k key then Some v else ownProperty rest key
  end.

Definition getProperty {A : Type} (literal : list (string * A)) (key : string)
  : Property A :=
  match ownProperty literal key with
  | Some v => Own v
  | None =>
      if existsb (String.eqb key) objectPrototypeMembers
      then Inherited key
      else Undefined
  end.

(** ** Types of the component (the interfaces of the source) *)

Record Coords : Type := { lat : Q; lon : Q }.

(** An element of a [weather] array: [{ main: string; description: string }]. *)
Module Condition.
Record t : Type := { main : string; description : string }.
End Condition.

Module WeatherData.
Record Main : Type :=
  { temp : Q; feels_like : Q; humidity : Q; pressure : Q }.
Record Wind : Type := { speed : Q }.
Record Clouds : Type := { all : Q }.
Record t : Type :=
  { coord : Coords;
    weather : list Condition.t;
    main : Main;
    visibility : Q;
    wind : Wind;
    clouds : Clouds;
    name : string }.
End WeatherData.

Module ForecastAPIItem.
Record Main : Type := { temp_min : Q; temp_max : Q }.
Record t : Type :=
  { dt : Z;
    main : Main;
    weather : list Condition.t }.
End ForecastAPIItem.

Definition ForecastAPIList : Type := list ForecastAPIItem.t.

Module ForecastItem.
Record t : Type :=
  { dt : Z;
    main : string;
    desc : string;
    temp_min : Q;
    temp_max : Q }.
End ForecastItem.

(** ** Unit conversion ([displayTemp], [displaySpeed]) *)

(** [units] is the state cell ['metric' | 'imperial']; the source compares
    it with the string ['imperial']. *)
Definition displayTemp (units : string) (temp : Q) : Z :=
  let t := if String.eqb units "imperial"
           then (temp * inject_Z 9 / inject_Z 5 + inject_Z 32)%Q
           else temp in
  Math.round t.

Definition displaySpeed (units : string) (speed : Q) : string :=
  let s := if String.eqb units "imperial"
           then (speed * (2237 # 1000))%Q
           else speed in
  toFixed1 s.

(** ** Condition-to-asset mapping ([getWeatherIcon], [getWeatherImage]) *)

(** What [map[key] || fallback] evaluates to: a value of the expected
    type, or the member of [Object.prototype] the key happened to name. *)
Inductive Asset (A : Type) : Type :=
| Mapped (value : A)
| PrototypeMember (member : string).
Arguments Mapped {A} value.
Arguments PrototypeMember {A} member.

(** [String(weatherMain)] for [weatherMain : string | undefined]. *)
Definition String_of_keyword (weatherMain : option string) : string :=
  match weatherMain with
  | Some s => s
  | None => "undefined"%string
  end.

Definition iconMap : list (string * string) :=
  [ ("Clear", "sunny");
    ("Clouds", "cloudy");
    ("Rain", "rainy");
    ("Snow", "snow");
    ("Thunderstorm", "thunderstorm");
    ("Drizzle", "rainy-outline");
    ("Mist", "cloudy-outline");
    ("Smoke", "cloudy-outline");
    ("Haze", "cloudy-outline");
    ("Dust", "cloudy-outline");
    ("Fog", "cloudy-outline");
    ("Sand", "cloudy-outline");
    ("Ash", "cloudy-outline");
    ("Squall", "rainy-outline");
    ("Tornado", "thunderstorm") ]%string.

Definition fallbackIcon : string := "partly-sunny"%string.

(** [map[String(weatherMain)] || 'partly-sunny']: the empty string and
    [undefined] are falsy, every other value is returned as it is. *)
Definition getWeatherIcon (weatherMain : option string) : Asset string :=
  match getProperty iconMap (String_of_keyword weatherMain) with
  | Own v => if String.eqb v "" then Mapped fallbackIcon else Mapped v
  | Inherited m => PrototypeMember m
  | Undefined => Mapped fallbackIcon
  end.

Record ImageSource : Type := { uri : string }.

Definition imageMap : list (string * ImageSource) :=
  [ ("Clear", {| uri := "https://images.unsplash.com/photo-1541119638723-c51cbe2262aa?q=80&w=2070&auto=format&fit=crop" |});
    ("Clouds", {| uri := "https://images.unsplash.com/photo-1501630834273-4b5604d2ee31?q=80&w=2070&auto=format&fit=crop" |});
    ("Rain", {| uri := "https://images.unsplash.com/photo-1515694346937-94d85e41e622?q=80&w=1974&auto=format&fit=crop" |});
    ("Snow", {| uri := "https://images.unsplash.com/photo-1491002052546-bf38f186af56?q=80&w=2070&auto=format&fit=crop" |});
    ("Thunderstorm", {| uri := "https://images.unsplash.com/photo-1605727226424-ad25e2d00e69?q=80&w=1974&auto=format&fit=crop" |});
    ("Drizzle", {| uri := "https://images.unsplash.com/photo-1556485671-85b8a7f0e4a7?q=80&w=1974&auto=format&fit=crop" |});
    ("Mist", {| uri := "https://images.unsplash.com/photo-1485236715568-ddc5ee6ca227?q=80&w=1974&auto=format&fit=crop" |}) ]%string.

Definition defaultImage : ImageSource :=
  {| uri := "https://images.unsplash.com/photo-1614483433234-5a715a4c4b32?q=80&w=1974&auto=format&fit=crop" |}.

(** [map[String(weatherMain)] || { uri: ... }]: an object is truthy. *)
Definition getWeatherImage (weatherMain : option string) : Asset ImageSource :=
  match getProperty imageMap (String_of_keyword weatherMain) with
  | Own v => Mapped v
  | Inherited m => PrototypeMember m
  | Undefined => Mapped defaultImage
  end.

(** ** The [Date] methods of the runtime *)

(** A [Date] is its time value in milliseconds.  [toDateString] renders
    the local calendar day ("Www Mmm dd yyyy", or "Invalid Date"); the
    strings it can return form the type [DateString], none of which names a
    member of [Object.prototype] or an array index, so that an object keyed
    by them is a map in insertion order.  [getHours] is the local hour, or
    [None] for the [NaN] of an invalid date. *)
Class DateRuntime : Type :=
  { DateString : Type;
    DateString_eqb : DateString -> DateString -> bool;
    DateString_eqb_eq :
      forall a b : DateString, DateString_eqb a b = true <-> a = b;
    toDateString : Z -> DateString;
    getHours : Z -> option Z }.

(** The runtime of a device in the UTC zone. *)
Module UTC.

Definition msPerDay : Z := 86400000.

(** Year, month (1..12) and day (1..31) of a day number counted from
    1970-01-01, in the proleptic Gregorian calendar. *)
Definition civil (days : Z) : Z * Z * Z :=
  let z := days + 719468 in
  let era := z / 146097 in
  let doe := z mod 146097 in
  let yoe := (doe - doe / 1460 + doe / 36524 - doe / 146096) / 365 in
  let doy := doe - (365 * yoe + yoe / 4 - yoe / 100) in
  let mp := (5 * doy + 2) / 153 in
  let d := doy - (153 * mp + 2) / 5 + 1 in
  let m := if mp <? 10 then mp + 3 else mp - 9 in
  let y := yoe + era * 400 + (if m <=? 2 then 1 else 0) in
  (y, m, d).

Definition weekdayNames : list string :=
  [ "Sun"; "Mon"; "Tue"; "Wed"; "Thu"; "Fri"; "Sat" ]%string.

Definition monthNames : list string :=
  [ "Jan"; "Feb"; "Mar"; "Apr"; "May"; "Jun";
    "Jul"; "Aug"; "Sep"; "Oct"; "Nov"; "Dec" ]%string.

Definition pad (width : nat) (s : string) : string :=
  (string_of_list_ascii (repeat "0"%char (width - String.length s)) ++ s)%string.

Definition validTime (ms : Z) : bool :=
  (-8640000000000000 <=? ms) && (ms <=? 8640000000000000).

Definition toDateString (ms : Z) : string :=
  if validTime ms then
    let days := ms / msPerDay in
    let '(y, m, d) := civil days in
    (nth (Z.to_nat ((days + 4) mod 7)) weekdayNames "" ++ " "
     ++ nth (Z.to_nat (m - 1)) monthNames "" ++ " "
     ++ pad 2 (Number_toString d) ++ " "
     ++ (if (y <? 0)%Z then "-" ++ pad 6 (Number_toString (- y)%Z)
         else pad 4 (Number_toString y)))%string
  else "Invalid Date"%string.

Definition getHours (ms : Z) : option Z :=
  if validTime ms then Some ((ms / 3600000) mod 24) else None.

End UTC.

#[export] Instance UTC_runtime : DateRuntime :=
  {| DateString := string;
     DateString_eqb := String.eqb;
     DateString_eqb_eq := String.eqb_eq;
     toDateString := UTC.toDateString;
     getHours := UTC.getHours |}.

(** ** Hourly slice ([processHourlyForecast]) *)

Record Dataset : Type := { data : list Z }.

Record HourlyData : Type :=
  { labels : list string;
    datasets : list Dataset;
    icons : list (Asset string) }.

(** [item.weather[0]?.main]: [undefined] when the array is empty. *)
Definition firstConditionMain (item : ForecastAPIItem.t) : option string :=
  option_map Condition.main (hd_error (ForecastAPIItem.weather item)).

(** The object stored under a day key of [byDay] in [compactForecast]. *)
Module Bucket.
Record t : Type :=
  { dt : Z;
    temp_min : Q;
    temp_max : Q;
    weather : option Condition.t }.
End Bucket.

(** [Array.prototype.sort(compare)]: a stable sort; [compare a b <= 0]
    keeps [a] before [b].  The engine's algorithm is not specified; on the
    buckets of [compactForecast], whose timestamps differ pairwise, every
    correct sort returns the same list. *)
Section ArraySort.

Context {A : Type} (compare : A -> A -> Z).

Fixpoint sortInsert (x : A) (sorted : list A) : list A :=
  match sorted with
  | [] => [x]
  | y :: rest =>
      if compare x y <=? 0 then x :: y :: rest
      else y :: sortInsert x rest
  end.

Definition Array_sort (xs : list A) : list A :=
  fold_right sortInsert [] xs.

End ArraySort.

Section Transforms.

Context `{runtime : DateRuntime}.

(** The label of one sample: [`${dt.getHours()}:00`] for
    [dt = new Date(item.dt * 1000)]. *)
Definition hourLabel (item : ForecastAPIItem.t) : string :=
  let dt := ForecastAPIItem.dt item * 1000 in
  ((match getHours dt with
    | Some h => Number_toString h
    | None => "NaN"
    end) ++ ":00")%string.

Definition roundedTemp (item : ForecastAPIItem.t) : Z :=
  Math.round (ForecastAPIItem.temp_max (ForecastAPIItem.main item)).

Definition conditionIcon (item : ForecastAPIItem.t) : Asset string :=
  getWeatherIcon (firstConditionMain item).

Definition processHourlyForecast (items : ForecastAPIList) : option HourlyData :=
  if (List.length items =? 0)%nat then None
  else
    let next24h := firstn 8 items in
    if (List.length next24h <? 2)%nat then None
    else
      let labels := map hourLabel next24h in
      let data := map roundedTemp next24h in
      let icons := map conditionIcon next24h in
      Some {| labels := labels;
              datasets := [ {| data := data |} ];
              icons := icons |}.

(** ** Day compaction ([compactForecast]) *)

(** [byDay]: an object keyed by date strings, its own properties in
    insertion order. *)
Definition ByDay : Type := list (DateString * Bucket.t).

(** [byDay[dayKey]]. *)
Fixpoint byDay_get (byDay : ByDay) (dayKey : DateString) : option Bucket.t :=
  match byDay with
  | [] => None
  | (k, b) :: rest =>
      if DateString_eqb k dayKey then Some b else byDay_get rest dayKey
  end.

(** [byDay[dayKey] = bucket], and the writes to the fields of the object
    stored there: an existing key keeps its place, a new one goes last. *)
Fixpoint byDay_set (byDay : ByDay) (dayKey : DateString) (bucket : Bucket.t)
  : ByDay :=
  match byDay with
  | [] => [(dayKey, bucket)]
  | (k, b) :: rest =>
      if DateString_eqb k dayKey then (k, bucket) :: rest
      else (k, b) :: byDay_set rest dayKey bucket
  end.

(** [new Date(item.dt * 1000).toDateString()]. *)
Definition dayKeyOf (item : ForecastAPIItem.t) : DateString :=
  toDateString (ForecastAPIItem.dt item * 1000).

(** The body of the [forEach] callback. *)
Definition addSample (byDay : ByDay) (item : ForecastAPIItem.t) : ByDay :=
  let dayKey := dayKeyOf item in
  match byDay_get byDay dayKey with
  | None =>
      byDay_set byDay dayKey
        {| Bucket.dt := ForecastAPIItem.dt item;
           Bucket.temp_min := ForecastAPIItem.temp_min (ForecastAPIItem.main item);
           Bucket.temp_max := ForecastAPIItem.temp_max (ForecastAPIItem.main item);
           Bucket.weather := hd_error (ForecastAPIItem.weather item) |}
  | Some b =>
      byDay_set byDay dayKey
        {| Bucket.dt := Bucket.dt b;
           Bucket.temp_min :=
             Math.min (Bucket.temp_min b)
                      (ForecastAPIItem.temp_min (ForecastAPIItem.main item));
           Bucket.temp_max :=
             Math.max (Bucket.temp_max b)
                      (ForecastAPIItem.temp_max (ForecastAPIItem.main item));
           Bucket.weather := Bucket.weather b |}
  end.

Definition groupByDay (items : ForecastAPIList) : ByDay :=
  fold_left addSample items [].

(** [Object.values(byDay)]. *)
Definition Object_values (byDay : ByDay) : list Bucket.t := map snd byDay.

(** The comparator [(a, b) => a.dt - b.dt]. *)
Definition byTimestamp (a b : Bucket.t) : Z := Bucket.dt a - Bucket.dt b.

(** The [map] callback: [it.weather?.main ?? ''] and
    [it.weather?.description ?? '']. *)
Definition toForecastItem (it : Bucket.t) : ForecastItem.t :=
  {| ForecastItem.dt := Bucket.dt it;
     ForecastItem.main :=
       match Bucket.weather it with
       | Some w => Condition.main w
       | None => ""%string
       end;
     ForecastItem.desc :=
       match Bucket.weather it with
       | Some w => Condition.description w
       | None => ""%string
       end;
     ForecastItem.temp_min := Bucket.temp_min it;
     ForecastItem.temp_max := Bucket.temp_max it |}.

Definition compactForecast (items : ForecastAPIList) : list ForecastItem.t :=
  map toForecastItem
    (firstn 5 (Array_sort byTimestamp (Object_values (groupByDay items)))).

End Transforms.

(** ** The component: state, environment and calls *)

(** The search box holds a JavaScript string: UTF-16 code units. *)
Definition JsString : Type := list N.

(** [WhiteSpace] and [LineTerminator] of ECMAScript, which [trim] strips. *)
Definition isWhiteSpace (c : N) : bool :=
  existsb (N.eqb c)
    [ 0x0009; 0x000A; 0x000B; 0x000C; 0x000D; 0x0020; 0x00A0; 0x1680;
      0x2000; 0x2001; 0x2002; 0x2003; 0x2004; 0x2005; 0x2006; 0x2007;
      0x2008; 0x2009; 0x200A; 0x2028; 0x2029; 0x202F; 0x205F; 0x3000;
      0xFEFF ]%N.

Fixpoint trimStart (s : JsString) : JsString :=
  match s with
  | [] => []
  | c :: rest => if isWhiteSpace c then trimStart rest else s
  end.

Definition trimEnd (s : JsString) : JsString := rev (trimStart (rev s)).

Definition trim (s : JsString) : JsString := trimEnd (trimStart s).

(** Truthiness of a string: only the empty string is falsy. *)
Definition truthy (s : JsString) : bool :=
  match s with [] => false | _ :: _ => true end.

(** The body of the forecast endpoint: [fData.list] may be missing. *)
Module ForecastData.
Record t : Type := { list : option ForecastAPIList }.
End ForecastData.

(** The two endpoints of OpenWeather the screen calls. *)
Inductive Endpoint : Type := Current | Forecast.

Definition CURRENT_URL : string := "https://api.openweathermap.org/data/2.5/weather".
Definition FORECAST_URL : string := "https://api.openweathermap.org/data/2.5/forecast".

Definition baseUrl (e : Endpoint) : string :=
  match e with Current => CURRENT_URL | Forecast => FORECAST_URL end.

(** What a successful response of an endpoint parses to (the interfaces
    [WeatherData] and the forecast list of the source). *)
Definition Body (e : Endpoint) : Type :=
  match e with Current => WeatherData.t | Forecast => ForecastData.t end.

(** The holes of the URL template literals. *)
Inductive Param : Type :=
| Literal (text : string)
| Encoded (query : JsString)        (* encodeURIComponent(query) *)
| Number (value : Q)                (* ${lat}, ${lon} *)
| ApiKey (key : option string).     (* ${API_KEY} *)

Record Url : Type :=
  { endpoint : Endpoint;
    params : list (string * Param) }.

(** A promise once awaited. *)
Inductive Outcome (A : Type) : Type :=
| Resolved (value : A)
| Rejected (reason : string).
Arguments Resolved {A} value.
Arguments Rejected {A} reason.

(** A response: [ok] with a body of the endpoint's type, or not [ok] with
    the [message] of the API's error object; [json()] may reject. *)
Inductive Response (B : Type) : Type :=
| Ok (json : Outcome B)
| NotOk (json : Outcome (option string)).
Arguments Ok {B} json.
Arguments NotOk {B} json.

Record LocationObject : Type := { latitude : Q; longitude : Q }.

(** What lies outside the component: the build-time credential, the
    location service and the network. *)
Record Env : Type :=
  { API_KEY : option string;
    requestForegroundPermissionsAsync : Outcome string;
    getCurrentPositionAsync : Outcome LocationObject;
    fetch : forall url : Url, Outcome (Response (Body (endpoint url))) }.

(** The calls that leave the component, as logged by the handlers. *)
Inductive Call : Type :=
| RequestForegroundPermissions
| GetCurrentPosition
| Fetch (url : Url)
| KeyboardDismiss.

(** The [useState] cells of [WeatherScreen]. *)
Record State : Type :=
  { loading : bool;
    refreshing : bool;
    error : option string;
    theme : string;
    infoModalVisible : bool;
    units : string;
    query : JsString;
    coords : option Coords;
    cityLabel : string;
    current : option WeatherData.t;
    forecast : list ForecastItem.t;
    hourlyForecast : option HourlyData }.

(** The state of the first render. *)
Definition initialState : State :=
  {| loading := true;
     refreshing := false;
     error := None;
     theme := "light";
     infoModalVisible := false;
     units := "metric";
     query := [];
     coords := None;
     cityLabel := "";
     current := None;
     forecast := [];
     hourlyForecast := None |}.

Definition withLoading (v : bool) (s : State) : State :=
  {| loading := v; refreshing := refreshing s; error := error s;
     theme := theme s; infoModalVisible := infoModalVisible s;
     units := units s; query := query s; coords := coords s;
     cityLabel := cityLabel s; current := current s;
     forecast := forecast s; hourlyForecast := hourlyForecast s |}.

Definition withRefreshing (v : bool) (s : State) : State :=
  {| loading := loading s; refreshing := v; error := error s;
     theme := theme s; infoModalVisible := infoModalVisible s;
     units := units s; query := query s; coords := coords s;
     cityLabel := cityLabel s; current := current s;
     forecast := forecast s; hourlyForecast := hourlyForecast s |}.

Definition withError (v : option string) (s : State) : State :=
  {| loading := loading s; refreshing := refreshing s; error := v;
     theme := theme s; infoModalVisible := infoModalVisible s;
     units := units s; query := query s; coords := coords s;
     cityLabel := cityLabel s; current := current s;
     forecast := forecast s; hourlyForecast := hourlyForecast s |}.

Definition withUnits (v : string) (s : State) : State :=
  {| loading := loading s; refreshing := refreshing s; error := error s;
     theme := theme s; infoModalVisible := infoModalVisible s;
     units := v; query := query s; coords := coords s;
     cityLabel := cityLabel s; current := current s;
     forecast := forecast s; hourlyForecast := hourlyForecast s |}.

Definition withCoords (v : option Coords) (s : State) : State :=
  {| loading := loading s; refreshing := refreshing s; error := error s;
     theme := theme s; infoModalVisible := infoModalVisible s;
     units := units s; query := query s; coords := v;
     cityLabel := cityLabel s; current := current s;
     forecast := forecast s; hourlyForecast := hourlyForecast s |}.

Definition withCityLabel (v : string) (s : State) : State :=
  {| loading := loading s; refreshing := refreshing s; error := error s;
     theme := theme s; infoModalVisible := infoModalVisible s;
     units := units s; query := query s; coords := coords s;
     cityLabel := v; current := current s;
     forecast := forecast s; hourlyForecast := hourlyForecast s |}.

Definition withCurrent (v : option WeatherData.t) (s : State) : State :=
  {| loading := loading s; refreshing := refreshing s; error := error s;
     theme := theme s; infoModalVisible := infoModalVisible s;
     units := units s; query := query s; coords := coords s;
     cityLabel := cityLabel s; current := v;
     forecast := forecast s; hourlyForecast := hourlyForecast s |}.

Definition withForecast (v : list ForecastItem.t) (s : State) : State :=
  {| loading := loading s; refreshing := refreshing s; error := error s;
     theme := theme s; infoModalVisible := infoModalVisible s;
     units := units s; query := query s; coords := coords s;
     cityLabel := cityLabel s; current := current s;
     forecast := v; hourlyForecast := hourlyForecast s |}.

Definition withHourlyForecast (v : option HourlyData) (s : State) : State :=
  {| loading := loading s; refreshing := refreshing s; error := error s;
     theme := theme s; infoModalVisible := infoModalVisible s;
     units := units s; query := query s; coords := coords s;
     cityLabel := cityLabel s; current := current s;
     forecast := forecast s; hourlyForecast := v |}.

(** ** The monad of the handlers *)

(** How a block ends: normally, or with a thrown [Error] (its message). *)
Inductive Completion (A : Type) : Type :=
| Returned (value : A)
| Thrown (message : string).
Arguments Returned {A} value.
Arguments Thrown {A} message.

(** A handler runs from a state to a completion, the state it leaves and
    the calls it made, in order. *)
Definition Handler (A : Type) : Type :=
  State -> Completion A * State * list Call.

Definition ret {A : Type} (a : A) : Handler A :=
  fun s => (Returned a, s, []).

Definition bind {A B : Type} (m : Handler A) (k : A -> Handler B) : Handler B :=
  fun s =>
    match m s with
    | (Returned a, s1, calls1) =>
        let '(r, s2, calls2) := k a s1 in (r, s2, calls1 ++ calls2)
    | (Thrown e, s1, calls1) => (Thrown e, s1, calls1)
    end.

Definition throw {A : Type} (message : string) : Handler A :=
  fun s => (Thrown message, s, []).

Definition modify (f : State -> State) : Handler unit :=
  fun s => (Returned tt, f s, []).

Definition get : Handler State :=
  fun s => (Returned s, s, []).

Definition call (c : Call) : Handler unit :=
  fun s => (Returned tt, s, [c]).

(** [try { body } catch (e) { handler }]. *)
Definition tryCatch {A : Type} (body : Handler A) (handler : string -> Handler A)
  : Handler A :=
  fun s =>
    match body s with
    | (Returned a, s1, calls1) => (Returned a, s1, calls1)
    | (Thrown e, s1, calls1) =>
        let '(r, s2, calls2) := handler e s1 in (r, s2, calls1 ++ calls2)
    end.

(** [try { body } finally { finalizer }]: the finalizer runs however the
    body ended, and the body's completion stands unless the finalizer
    throws. *)
Definition tryFinally {A : Type} (body : Handler A) (finalizer : Handler unit)
  : Handler A :=
  fun s =>
    let '(r, s1, calls1) := body s in
    match finalizer s1 with
    | (Returned _, s2, calls2) => (r, s2, calls1 ++ calls2)
    | (Thrown e, s2, calls2) => (Thrown e, s2, calls1 ++ calls2)
    end.

(** Settling a promise the environment answered. *)
Definition settle {A : Type} (o : Outcome A) : Handler A :=
  match o with
  | Resolved a => ret a
  | Rejected reason => throw reason
  end.

Declare Scope handler_scope.
Delimit Scope handler_scope with handler.
Notation "x <- m ;; k" := (bind m (fun x => k))
  (at level 61, m at next level, right associativity) : handler_scope.
Notation "m ;; k" := (bind m (fun _ => k))
  (at level 61, right associativity) : handler_scope.

(** ** Handlers of [WeatherScreen] *)

(** [res.json()] and [res.ok] read together: the parsed body is the
    endpoint's data when the response is [ok], the API's error object
    otherwise. *)
Inductive Parsed (B : Type) : Type :=
| Data (body : B)
| ErrorObject (message : option string).
Arguments Data {B} body.
Arguments ErrorObject {B} message.

Definition Outcome_map {A B : Type} (f : A -> B) (o : Outcome A) : Outcome B :=
  match o with
  | Resolved a => Resolved (f a)
  | Rejected r => Rejected r
  end.

Definition json {B : Type} (res : Response B) : Outcome (Parsed B) :=
  match res with
  | Ok j => Outcome_map Data j
  | NotOk j => Outcome_map ErrorObject j
  end.

(** [Promise.all] of two promises. *)
Definition Promise_all2 {A B : Type} (a : Outcome A) (b : Outcome B)
  : Outcome (A * B) :=
  match a, b with
  | Resolved x, Resolved y => Resolved (x, y)
  | Rejected r, _ => Rejected r
  | Resolved _, Rejected r => Rejected r
  end.

(** [message || fallback] for [message : string | undefined]. *)
Definition orDefault (message : option string) (fallback : string) : string :=
  match message with
  | Some m => if String.eqb m "" then fallback else m
  | None => fallback
  end.

(** [fData?.list || []]. *)
Definition listOrEmpty (fData : ForecastData.t) : ForecastAPIList :=
  match ForecastData.list fData with
  | Some l => l
  | None => []
  end.

Definition setLoading (v : bool) : Handler unit := modify (withLoading v).
Definition setRefreshing (v : bool) : Handler unit := modify (withRefreshing v).
Definition setError (v : option string) : Handler unit := modify (withError v).
Definition setUnits (f : string -> string) : Handler unit :=
  modify (fun s => withUnits (f (units s)) s).
Definition setCoords (v : option Coords) : Handler unit := modify (withCoords v).
Definition setCityLabel (v : string) : Handler unit := modify (withCityLabel v).
Definition setCurrent (v : option WeatherData.t) : Handler unit :=
  modify (withCurrent v).
Definition setForecast (v : list ForecastItem.t) : Handler unit :=
  modify (withForecast v).
Definition setHourlyForecast (v : option HourlyData) : Handler unit :=
  modify (withHourlyForecast v).

Definition msgPermissionDenied : string := "Permiso de ubicación denegado".
Definition msgNoLocation : string := "No se pudo obtener la ubicación actual".
Definition msgCityNotFound : string :=
  "No se encontró la ciudad. Intenta con otro nombre.".
Definition msgMissingKey : string :=
  "Falta la API Key (EXPO_PUBLIC_OPENWEATHER_API_KEY).".
Definition msgFetchFailed : string :=
  "Error al obtener datos del clima. Revisa conexión o API key.".

Section Component.

Context `{runtime : DateRuntime} (env : Env).

Local Open Scope handler_scope.

(** [useMemo(() => Boolean(API_KEY))]. *)
Definition canFetch : bool :=
  match API_KEY env with
  | Some k => negb (String.eqb k "")
  | None => false
  end.

(** [`${URL}?lat=${lat}&lon=${lon}&appid=${API_KEY}&units=metric&lang=es`]. *)
Definition urlByCoords (e : Endpoint) (lat lon : Q) : Url :=
  {| endpoint := e;
     params := [ ("lat", Number lat); ("lon", Number lon);
                 ("appid", ApiKey (API_KEY env));
                 ("units", Literal "metric"); ("lang", Literal "es") ]%string |}.

(** [`${CURRENT_URL}?q=${encodeURIComponent(query)}&appid=${API_KEY}&units=metric&lang=es`]. *)
Definition urlByCity (q : JsString) : Url :=
  {| endpoint := Current;
     params := [ ("q", Encoded q);
                 ("appid", ApiKey (API_KEY env));
                 ("units", Literal "metric"); ("lang", Literal "es") ]%string |}.

Definition fetchAll (c : Coords) : Handler unit :=
  if negb canFetch then
    setError (Some msgMissingKey)
  else
    tryCatch
      (let currentUrl := urlByCoords Current (lat c) (lon c) in
       let forecastUrl := urlByCoords Forecast (lat c) (lon c) in
       call (Fetch currentUrl) ;;
       call (Fetch forecastUrl) ;;
       responses <- settle (Promise_all2 (fetch env currentUrl)
                                         (fetch env forecastUrl)) ;;
       bodies <- settle (Promise_all2 (json (fst responses))
                                      (json (snd responses))) ;;
       match fst bodies with
       | ErrorObject m => throw (orDefault m "Error en clima actual")
       | Data cData =>
           match snd bodies with
           | ErrorObject m => throw (orDefault m "Error en pronóstico")
           | Data fData =>
               setCurrent (Some cData) ;;
               setCityLabel (WeatherData.name cData) ;;
               setForecast (compactForecast (listOrEmpty fData)) ;;
               setHourlyForecast (processHourlyForecast (listOrEmpty fData))
           end
       end)
      (fun _ => setError (Some msgFetchFailed)).

Definition initByGeolocation : Handler unit :=
  setError None ;;
  setLoading true ;;
  tryFinally
    (tryCatch
       (call RequestForegroundPermissions ;;
        status <- settle (requestForegroundPermissionsAsync env) ;;
        if negb (String.eqb status "granted") then
          setError (Some msgPermissionDenied) ;;
          setLoading false
        else
          call GetCurrentPosition ;;
          location <- settle (getCurrentPositionAsync env) ;;
          let lat := latitude location in
          let lon := longitude location in
          setCoords (Some {| lat := lat; lon := lon |}) ;;
          fetchAll {| lat := lat; lon := lon |})
       (fun _ => setError (Some msgNoLocation)))
    (setLoading false).

Definition searchByCity : Handler unit :=
  s <- get ;;
  if negb (truthy (trim (query s))) then ret tt
  else
    setError None ;;
    setLoading true ;;
    call KeyboardDismiss ;;
    tryFinally
      (tryCatch
         (let currentUrl := urlByCity (query s) in
          call (Fetch currentUrl) ;;
          cRes <- settle (fetch env currentUrl) ;;
          cBody <- settle (json cRes) ;;
          match cBody with
          | ErrorObject m => throw (orDefault m "Error al buscar ciudad")
          | Data cData =>
              setCoords None ;;
              setCurrent (Some cData) ;;
              setCityLabel (WeatherData.name cData) ;;
              let forecastUrl :=
                urlByCoords Forecast (lat (WeatherData.coord cData))
                                     (lon (WeatherData.coord cData)) in
              call (Fetch forecastUrl) ;;
              fRes <- settle (fetch env forecastUrl) ;;
              fBody <- settle (json fRes) ;;
              match fBody with
              | ErrorObject m => throw (orDefault m "Error en pronóstico")
              | Data fData =>
                  setForecast (compactForecast (listOrEmpty fData)) ;;
                  setHourlyForecast (processHourlyForecast (listOrEmpty fData))
              end
          end)
         (fun _ => setError (Some msgCityNotFound)))
      (setLoading false).

Definition toggleUnits : Handler unit :=
  setUnits (fun prev => if String.eqb prev "metric" then "imperial" else "metric")%string.

Definition refreshData : Handler unit :=
  s <- get ;;
  if match coords s with Some _ => false | None => true end
     && negb (truthy (query s))
  then ret tt
  else
    setLoading true ;;
    setError None ;;
    tryFinally
      (match coords s with
       | Some c => fetchAll c
       | None => searchByCity
       end)
      (setLoading false).

Definition onRefresh : Handler unit :=
  setRefreshing true ;;
  refreshData ;;
  setRefreshing false.

End Component.

(** ** What [WeatherScreen] renders *)

(** The handlers a rendered control can be wired to. *)
Inductive HandlerName : Type :=
| InitByGeolocation
| SearchByCity
| OnRefresh
| ToggleUnits.

Record Button : Type := { onPress : HandlerName; label : string }.

Record CurrentCard : Type :=
  { background : Asset ImageSource;
    cardIcon : Asset string;
    city : string;
    cardDescription : string;
    temperature : Z;
    maxMin : option (Z * Z);
    feelsLike : Z;
    humidityPercent : Q;
    windText : string;
    pressureHPa : Q;
    visibilityKm : string }.

Record Chart : Type :=
  { chartLabels : list string;
    chartData : list Z;
    chartIcons : list (Asset string) }.

Record ForecastRow : Type :=
  { rowKey : Z;
    rowIcon : Asset string;
    rowDesc : string;
    rowMax : Z;
    rowMin : Z }.

Record MainView : Type :=
  { onSubmitEditing : HandlerName;
    searchButton : HandlerName;
    locateButton : HandlerName;
    onPullToRefresh : HandlerName;
    unitSwitchValue : bool;
    onUnitSwitch : HandlerName;
    unitSymbol : string;
    speedLabel : string;
    card : option CurrentCard;
    chart : option Chart;
    rows : list ForecastRow }.

Inductive Screen : Type :=
| LoadingScreen
| ErrorScreen (message : string) (retry : Button)
| MainScreen (view : MainView).

Section Render.

Variable s : State.

Definition firstCondition (w : WeatherData.t) : option Condition.t :=
  hd_error (WeatherData.weather w).

Definition renderCard (w : WeatherData.t) : CurrentCard :=
  {| background := getWeatherImage (option_map Condition.main (firstCondition w));
     cardIcon := getWeatherIcon (option_map Condition.main (firstCondition w));
     city := if String.eqb (cityLabel s) "" then "—" else cityLabel s;
     cardDescription :=
       match firstCondition w with
       | Some c =>
           if String.eqb (Condition.description c) "" then "—"
           else Condition.description c
       | None => "—"
       end;
     temperature := displayTemp (units s) (WeatherData.temp (WeatherData.main w));
     maxMin :=
       match forecast s with
       | f :: _ => Some (displayTemp (units s) (ForecastItem.temp_max f),
                         displayTemp (units s) (ForecastItem.temp_min f))
       | [] => None
       end;
     feelsLike := displayTemp (units s) (WeatherData.feels_like (WeatherData.main w));
     humidityPercent := WeatherData.humidity (WeatherData.main w);
     windText := displaySpeed (units s) (WeatherData.speed (WeatherData.wind w));
     pressureHPa := WeatherData.pressure (WeatherData.main w);
     visibilityKm := toFixed1 (WeatherData.visibility w / inject_Z 1000)%Q |}.

(** [hourlyForecast.datasets[0].data.map(displayTemp)]; reading [data]
    of a missing first dataset throws. *)
Definition renderChart (h : HourlyData) : Completion Chart :=
  match datasets h with
  | d :: _ =>
      Returned {| chartLabels := labels h;
                  chartData := map (fun t => displayTemp (units s) (inject_Z t)) (data d);
                  chartIcons := icons h |}
  | [] => Thrown "TypeError"
  end.

Definition renderRow (f : ForecastItem.t) : ForecastRow :=
  {| rowKey := ForecastItem.dt f;
     rowIcon := getWeatherIcon (Some (ForecastItem.main f));
     rowDesc := ForecastItem.desc f;
     rowMax := displayTemp (units s) (ForecastItem.temp_max f);
     rowMin := displayTemp (units s) (ForecastItem.temp_min f) |}.

Definition renderMain (chart : option Chart) : MainView :=
  {| onSubmitEditing := SearchByCity;
     searchButton := SearchByCity;
     locateButton := InitByGeolocation;
     onPullToRefresh := OnRefresh;
     unitSwitchValue := String.eqb (units s) "imperial";
     onUnitSwitch := ToggleUnits;
     unitSymbol := if String.eqb (units s) "metric" then "°C" else "°F";
     speedLabel := if String.eqb (units s) "metric" then "m/s" else "mph";
     card := option_map renderCard (current s);
     chart := chart;
     rows := map renderRow (forecast s) |}.

Definition mainScreen : Completion Screen :=
  match hourlyForecast s with
  | Some h =>
      match renderChart h with
      | Returned c => Returned (MainScreen (renderMain (Some c)))
      | Thrown e => Thrown e
      end
  | None => Returned (MainScreen (renderMain None))
  end.

Definition errorScreen (message : string) : Screen :=
  ErrorScreen message
    {| onPress := InitByGeolocation;
       label := "Reintentar con mi ubicación" |}.

(** The three returns of the component: [if (loading)], [if (error)]
    (a non-empty message), and the main screen. *)
Definition render : Completion Screen :=
  if loading s then Returned LoadingScreen
  else
    match error s with
    | Some message =>
        if String.eqb message "" then mainScreen
        else Returned (errorScreen message)
    | None => mainScreen
    end.

End Render.

(** The handler a control is wired to. *)
Definition handlerOf `{runtime : DateRuntime} (env : Env) (h : HandlerName)
  : Handler unit :=
  match h with
  | InitByGeolocation => initByGeolocation env
  | SearchByCity => searchByCity env
  | OnRefresh => onRefresh env
  | ToggleUnits => toggleUnits
  end.

(** * Vocabulary of the properties *)

(** ** Numbers and lists *)

(** The minimum (maximum) of a list of numbers: one of them, below
    (above) all of them. *)
Definition isMinimumOf (m : Q) (xs : list Q) : Prop :=
  In m xs /\ forall x : Q, In x xs -> (m <= x)%Q.

Definition isMaximumOf (m : Q) (xs : list Q) : Prop :=
  In m xs /\ forall x : Q, In x xs -> (x <= m)%Q.

(** A list in ascending order of an integer key. *)
Definition ascending {A : Type} (key : A -> Z) : list A -> Prop :=
  StronglySorted (fun a b => key a <= key b).

(** ** Asset maps *)

(** A key that names a member of [Object.prototype]. *)
Definition inheritedKey (key : string) : bool :=
  existsb (String.eqb key) objectPrototypeMembers.

(** ** Samples and days *)

Definition sampleMin (item : ForecastAPIItem.t) : Q :=
  ForecastAPIItem.temp_min (ForecastAPIItem.main item).

Definition sampleMax (item : ForecastAPIItem.t) : Q :=
  ForecastAPIItem.temp_max (ForecastAPIItem.main item).

(** [it.weather?.main ?? ''] and [it.weather?.description ?? ''] for the
    first condition of a sample. *)
Definition conditionMainOf (item : ForecastAPIItem.t) : string :=
  match hd_error (ForecastAPIItem.weather item) with
  | Some w => Condition.main w
  | None => EmptyString
  end.

Definition conditionDescriptionOf (item : ForecastAPIItem.t) : string :=
  match hd_error (ForecastAPIItem.weather item) with
  | Some w => Condition.description w
  | None => EmptyString
  end.

(** The bucket of a day, from the day's samples in input order. *)
Definition summarize (samples : list ForecastAPIItem.t) : option Bucket.t :=
  match samples with
  | [] => None
  | first :: rest =>
      Some {| Bucket.dt := ForecastAPIItem.dt first;
              Bucket.temp_min := fold_left Math.min (map sampleMin rest) (sampleMin first);
              Bucket.temp_max := fold_left Math.max (map sampleMax rest) (sampleMax first);
              Bucket.weather := hd_error (ForecastAPIItem.weather first) |}
  end.

Section Calendar.

Context `{runtime : DateRuntime}.

Definition sameDay (k : DateString) (item : ForecastAPIItem.t) : bool :=
  DateString_eqb (dayKeyOf item) k.

(** The samples of one day, in input order. *)
Definition samplesOf (k : DateString) (items : ForecastAPIList)
  : list ForecastAPIItem.t :=
  filter (sameDay k) items.

(** The day a bucket stands for, read back from its timestamp. *)
Definition bucketDay (b : Bucket.t) : DateString :=
  toDateString (Bucket.dt b * 1000).

(** The day of an entry of the output. *)
Definition entryDay (o : ForecastItem.t) : DateString :=
  toDateString (ForecastItem.dt o * 1000).

Definition sortedBuckets (items : ForecastAPIList) : list Bucket.t :=
  Array_sort byTimestamp (Object_values (groupByDay items)).

(** The days of the input, each once, in order of first appearance. *)
Fixpoint distinctDays (items : ForecastAPIList) : list DateString :=
  match items with
  | [] => []
  | x :: rest =>
      dayKeyOf x
        :: filter (fun k => negb (DateString_eqb k (dayKeyOf x)))
             (distinctDays rest)
  end.

(** The calendar on the timestamps of the input: a sample timed between
    two samples of one day is of that day. *)
Definition calendarConsistent (items : ForecastAPIList) : bool :=
  forallb (fun a =>
    forallb (fun b =>
      forallb (fun c =>
        implb ((ForecastAPIItem.dt a <=? ForecastAPIItem.dt b)
               && (ForecastAPIItem.dt b <=? ForecastAPIItem.dt c)
               && DateString_eqb (dayKeyOf a) (dayKeyOf c))
              (DateString_eqb (dayKeyOf b) (dayKeyOf a)))
        items) items) items.

(** Day [k'] lies before day [k]: they differ, and a sample of [k'] is
    timed before a sample of [k]. *)
Definition dayBefore (items : ForecastAPIList) (k' k : DateString) : bool :=
  negb (DateString_eqb k' k)
  && existsb (fun a =>
       sameDay k' a
       && existsb (fun b =>
            sameDay k b && (ForecastAPIItem.dt a <? ForecastAPIItem.dt b))
            items)
       items.

(** How many days of the input lie before day [k]. *)
Definition earlierDays (items : ForecastAPIList) (k : DateString) : nat :=
  List.length (filter (fun k' => dayBefore items k' k) (distinctDays items)).

End Calendar.

(** ** Handlers *)

(** The [units] parameter of a URL. *)
Definition unitsParam (url : Url) : option Param :=
  option_map snd (find (fun p => String.eqb (fst p) "units") (params url)).

(** A call that asks the API for metric units, when it is a [fetch]. *)
Definition asksMetric (c : Call) : Prop :=
  match c with
  | Fetch url => unitsParam url = Some (Literal "metric")
  | _ => True
  end.

(** A handler whose every call satisfies [P]. *)
Definition callsAll {A : Type} (P : Call -> Prop) (m : Handler A) : Prop :=
  forall s : State, Forall P (snd (m s)).

(** A handler that neither reads nor writes the [units] cell: run from a
    state with another unit mode, it makes the same calls, ends the same
    way and leaves the same state but for that unit mode. *)
Definition unitsOblivious {A : Type} (m : Handler A) : Prop :=
  forall (u : string) (s : State),
    m (withUnits u s)
    = (fst (fst (m s)), withUnits u (snd (fst (m s))), snd (m s)).

(** A handler that completes normally from every state. *)
Definition completes {A : Type} (m : Handler A) : Prop :=
  forall s : State, exists a : A, fst (fst (m s)) = Returned a.

(** The unit mode after a toggle. *)
Definition toggled (u : string) : string :=
  if String.eqb u "metric" then "imperial"%string else "metric"%string.

(** The ways a [fetch] of an endpoint fails: the network rejects it, the
    API answers with a non-success status, or the body cannot be read. *)
Inductive FetchFailure {B : Type} : Outcome (Response B) -> Prop :=
| NetworkFailure (reason : string) : FetchFailure (Rejected reason)
| NonSuccessResponse (body : Outcome (option string)) :
    FetchFailure (Resolved (NotOk body))
| UnreadableBody (reason : string) :
    FetchFailure (Resolved (Ok (Rejected reason))).

(** The messages the screen can show. *)
Definition userMessages : list string :=
  [ msgPermissionDenied; msgNoLocation; msgCityNotFound; msgMissingKey;
    msgFetchFailed ].

(** What a failed run comes to: the handler itself completes normally, the
    [error] cell holds one of [messages], the screen rendered from the
    state it leaves is the error screen with that message and the retry
    button, and no call was made twice. *)
Definition collapsesToError (messages : list string)
           (run : Completion unit * State * list Call) : Prop :=
  fst (fst run) = Returned tt /\
  (exists message : string,
      error (snd (fst run)) = Some message /\
      In message messages /\
      render (snd (fst run)) = Returned (errorScreen message)) /\
  NoDup (snd run).

Section Failures.

Context (env : Env).

(** The failures of [fetchAll]: the credential is missing, or one of
    the two fetches fails. *)
Inductive FetchAllFailure (c : Coords) : Prop :=
| MissingCredential :
    canFetch env = false -> FetchAllFailure c
| CurrentFetchFailed :
    canFetch env = true ->
    FetchFailure (fetch env (urlByCoords env Current (lat c) (lon c))) ->
    FetchAllFailure c
| ForecastFetchFailed :
    canFetch env = true ->
    FetchFailure (fetch env (urlByCoords env Forecast (lat c) (lon c))) ->
    FetchAllFailure c.

(** The failures of the geolocation flow. *)
Inductive GeolocationFailure : Prop :=
| PermissionRequestFailed (reason : string) :
    requestForegroundPermissionsAsync env = Rejected reason ->
    GeolocationFailure
| PermissionDenied (status : string) :
    requestForegroundPermissionsAsync env = Resolved status ->
    status <> "granted"%string ->
    GeolocationFailure
| LocationUnavailable (reason : string) :
    requestForegroundPermissionsAsync env = Resolved "granted"%string ->
    getCurrentPositionAsync env = Rejected reason ->
    GeolocationFailure
| WeatherUnavailable (location : LocationObject) :
    requestForegroundPermissionsAsync env = Resolved "granted"%string ->
    getCurrentPositionAsync env = Resolved location ->
    FetchAllFailure {| lat := latitude location; lon := longitude location |} ->
    GeolocationFailure.

(** The failures of a city search. *)
Inductive CitySearchFailure (q : JsString) : Prop :=
| CityLookupFailed :
    FetchFailure (fetch env (urlByCity env q)) ->
    CitySearchFailure q
| CityForecastFailed (cData : WeatherData.t) :
    fetch env (urlByCity env q) = Resolved (Ok (Resolved cData)) ->
    FetchFailure
      (fetch env (urlByCoords env Forecast
                    (lat (WeatherData.coord cData))
                    (lon (WeatherData.coord cData)))) ->
    CitySearchFailure q.

End Failures.

(** ** Sample data: a device in the UTC zone *)

Definition clouds : Condition.t :=
  {| Condition.main := "Clouds"; Condition.description := "nubes dispersas" |}.

Definition rain : Condition.t :=
  {| Condition.main := "Rain"; Condition.description := "lluvia ligera" |}.

Definition sample (dt : Z) (lo hi : Q) (w : list Condition.t)
  : ForecastAPIItem.t :=
  {| ForecastAPIItem.dt := dt;
     ForecastAPIItem.main :=
       {| ForecastAPIItem.temp_min := lo; ForecastAPIItem.temp_max := hi |};
     ForecastAPIItem.weather := w |}.

(** Four samples over two days: Tue Nov 14 2023 at 21:00 and, listed
    last, at 18:00; Wed Nov 15 2023 at 00:00 and 03:00. *)
Definition sampleForecast : ForecastAPIList :=
  [ sample 1699995600 (21 # 2) 12 [clouds];
    sample 1700006400 8 (19 # 2) [rain];
    sample 1700017200 (15 # 2) 9 [];
    sample 1699984800 11 (27 # 2) [rain; clouds] ].

(** One sample a day at 12:00 for six days (Nov 14 to Nov 19 2023), out
    of order. *)
Definition sixDays : ForecastAPIList :=
  [ sample 1700222400 5 9 [clouds];
    sample 1699963200 1 2 [rain];
    sample 1700395200 7 8 [];
    sample 1700049600 2 6 [clouds];
    sample 1700308800 6 7 [rain];
    sample 1700136000 3 4 [clouds] ].

Definition sampleWeather : WeatherData.t :=
  {| WeatherData.coord := {| lat := -(33 # 2); lon := -(681 # 10) |};
     WeatherData.weather := [clouds];
     WeatherData.main :=
       {| WeatherData.temp := 12; WeatherData.feels_like := 11;
          WeatherData.humidity := 40; WeatherData.pressure := 1013 |};
     WeatherData.visibility := 10000;
     WeatherData.wind := {| WeatherData.speed := 5 |};
     WeatherData.clouds := {| WeatherData.all := 20 |};
     WeatherData.name := "La Paz" |}.

(** The user refuses the location permission. *)
Definition deniedEnv : Env :=
  {| API_KEY := Some "k"%string;
     requestForegroundPermissionsAsync := Resolved "denied"%string;
     getCurrentPositionAsync := Rejected "unreachable";
     fetch := fun url => Rejected "unreachable" |}.

(** The device is located, the network is down. *)
Definition offlineEnv : Env :=
  {| API_KEY := Some "k"%string;
     requestForegroundPermissionsAsync := Resolved "granted"%string;
     getCurrentPositionAsync :=
       Resolved {| latitude := -(33 # 2); longitude := -(681 # 10) |};
     fetch := fun url => Rejected "Network request failed" |}.

(** Both endpoints answer. *)
Definition onlineEnv : Env :=
  {| API_KEY := Some "k"%string;
     requestForegroundPermissionsAsync := Resolved "granted"%string;
     getCurrentPositionAsync :=
       Resolved {| latitude := -(33 # 2); longitude := -(681 # 10) |};
     fetch := fun url =>
       Resolved
         (Ok (Resolved
                match endpoint url as e return Body e with
                | Current => sampleWeather
                | Forecast => {| ForecastData.list := Some sampleForecast |}
                end)) |}.

(** The state once loading is over, with a city typed in the search box
    ("Oruro") or only blanks. *)
Definition idleState (q : JsString) : State :=
  {| loading := false;
     refreshing := false;
     error := None;
     theme := "light";
     infoModalVisible := false;
     units := "metric";
     query := q;
     coords := None;
     cityLabel := EmptyString;
     current := None;
     forecast := [];
     hourlyForecast := None |}.

Definition cityQuery : JsString := [79; 114; 117; 114; 111]%N.

Definition blankQuery : JsString := [0x20; 0x09; 0xA0]%N.

(** * The rest of the component: theme, search box, modal, events *)

Definition withTheme (v : string) (s : State) : State :=
  {| loading := loading s; refreshing := refreshing s; error := error s;
     theme := v; infoModalVisible := infoModalVisible s;
     units := units s; query := query s; coords := coords s;
     cityLabel := cityLabel s; current := current s;
     forecast := forecast s; hourlyForecast := hourlyForecast s |}.

Definition withInfoModalVisible (v : bool) (s : State) : State :=
  {| loading := loading s; refreshing := refreshing s; error := error s;
     theme := theme s; infoModalVisible := v;
     units := units s; query := query s; coords := coords s;
     cityLabel := cityLabel s; current := current s;
     forecast := forecast s; hourlyForecast := hourlyForecast s |}.

Definition withQuery (v : JsString) (s : State) : State :=
  {| loading := loading s; refreshing := refreshing s; error := error s;
     theme := theme s; infoModalVisible := infoModalVisible s;
     units := units s; query := v; coords := coords s;
     cityLabel := cityLabel s; current := current s;
     forecast := forecast s; hourlyForecast := hourlyForecast s |}.

Definition setTheme (v : string) : Handler unit := modify (withTheme v).
Definition setInfoModalVisible (v : bool) : Handler unit :=
  modify (withInfoModalVisible v).
Definition setQuery (v : JsString) : Handler unit := modify (withQuery v).

(** [const isDark = theme === 'dark']. *)
Definition isDark (s : State) : bool := String.eqb (theme s) "dark".

(** The theme switch: [onValueChange={() => setTheme(isDark ? 'light' : 'dark')}]. *)
Definition switchTheme : Handler unit :=
  bind get (fun s => setTheme (if isDark s then "light" else "dark")%string).

(** [dynamicStyles]: the colours that follow the theme. *)
Record DynamicStyles : Type :=
  { containerBackground : string;
    cardBackground : string;
    textColor : string }.

Definition dynamicStyles (s : State) : DynamicStyles :=
  {| containerBackground := if isDark s then "#121212" else "#f5f7fb";
     cardBackground := if isDark s then "#1E1E1E" else "#fff";
     textColor := if isDark s then "#E0E0E0" else "#333" |}%string.

(** What the user can do on a screen, and what it runs. *)
Inductive UserEvent : Type :=
| Press (h : HandlerName)            (* a control wired to a handler *)
| ChangeText (text : JsString)       (* onChangeText={setQuery} *)
| SwitchTheme                        (* the theme switch *)
| OpenInfo                           (* setInfoModalVisible(true) *)
| CloseInfo.                         (* setInfoModalVisible(false) *)

Definition dispatch `{runtime : DateRuntime} (env : Env) (ev : UserEvent)
  : Handler unit :=
  match ev with
  | Press h => handlerOf env h
  | ChangeText text => setQuery text
  | SwitchTheme => switchTheme
  | OpenInfo => setInfoModalVisible true
  | CloseInfo => setInfoModalVisible false
  end.

(** The events that load weather data. *)
Definition isLoad (ev : UserEvent) : bool :=
  match ev with
  | Press InitByGeolocation | Press SearchByCity | Press OnRefresh => true
  | _ => false
  end.

(** The controls each screen renders: none while loading, the retry
    button on the error screen, everything on the main screen. *)
Definition HandlerName_eqb (a b : HandlerName) : bool :=
  match a, b with
  | InitByGeolocation, InitByGeolocation
  | SearchByCity, SearchByCity
  | OnRefresh, OnRefresh
  | ToggleUnits, ToggleUnits => true
  | _, _ => false
  end.

Definition offers (screen : Screen) (ev : UserEvent) : bool :=
  match screen with
  | LoadingScreen => false
  | ErrorScreen _ retry =>
      match ev with
      | Press h => HandlerName_eqb h (onPress retry)
      | _ => false
      end
  | MainScreen _ => true
  end.

(** The state the first effect leaves: [initByGeolocation] run on mount. *)
Definition mounted `{runtime : DateRuntime} (env : Env) : State :=
  snd (fst (initByGeolocation env initialState)).

(** The states the screen can be in between two events.  Every handler
    that awaits shows the loading screen first, which has no control, so
    the user's events do not interleave with a running handler; the
    environment may answer differently at each event. *)
Inductive Reachable `{runtime : DateRuntime} : State -> Prop :=
| ReachMounted (env : Env) : Reachable (mounted env)
| ReachEvent (env : Env) (s : State) (screen : Screen) (ev : UserEvent) :
    Reachable s ->
    render s = Returned screen ->
    offers screen ev = true ->
    Reachable (snd (fst (dispatch env ev s))).

(** * Vocabulary of the further properties *)

(** The stored hourly series is well formed: one dataset, and as many
    labels, temperatures and icons, between two and eight of them. *)
Definition hourlyWellFormed (h : option HourlyData) : Prop :=
  match h with
  | None => True
  | Some h =>
      exists d : Dataset,
        datasets h = [d] /\
        (2 <= List.length (labels h) <= 8)%nat /\
        List.length (data d) = List.length (labels h) /\
        List.length (icons h) = List.length (labels h)
  end.

(** The stored forecast is a compacted one: at most five entries, in
    strictly ascending order of timestamp. *)
Definition forecastWellFormed (f : list ForecastItem.t) : Prop :=
  (List.length f <= 5)%nat /\ StronglySorted Z.lt (map ForecastItem.dt f).

(** What holds of the state between two events. *)
Record StateInvariant (s : State) : Prop :=
  { inv_loading : loading s = false;
    inv_refreshing : refreshing s = false;
    inv_units : units s = "metric"%string \/ units s = "imperial"%string;
    inv_theme : theme s = "light"%string \/ theme s = "dark"%string;
    inv_forecast : forecastWellFormed (forecast s);
    inv_hourly : hourlyWellFormed (hourlyForecast s);
    inv_current :
      current s = None -> forecast s = [] /\ hourlyForecast s = None }.

(** The invariant but for the two busy flags. *)
Definition settled (s : State) : Prop :=
  (units s = "metric"%string \/ units s = "imperial"%string) /\
  (theme s = "light"%string \/ theme s = "dark"%string) /\
  forecastWellFormed (forecast s) /\
  hourlyWellFormed (hourlyForecast s) /\
  (current s = None -> forecast s = [] /\ hourlyForecast s = None).

(** The cells a handler that fetches may write. *)
Definition sameSettings (s s' : State) : Prop :=
  query s' = query s /\
  theme s' = theme s /\
  infoModalVisible s' = infoModalVisible s /\
  units s' = units s.

(** The stored weather data. *)
Definition sameData (s s' : State) : Prop :=
  coords s' = coords s /\
  cityLabel s' = cityLabel s /\
  current s' = current s /\
  forecast s' = forecast s /\
  hourlyForecast s' = hourlyForecast s.

(** What a successful load stores, in the order of the setters:
    [setCurrent], [setCityLabel], [setForecast], [setHourlyForecast]. *)
Definition storeWeather `{runtime : DateRuntime}
           (cData : WeatherData.t) (fData : ForecastData.t) (s : State) : State :=
  withHourlyForecast (processHourlyForecast (listOrEmpty fData))
    (withForecast (compactForecast (listOrEmpty fData))
       (withCityLabel (WeatherData.name cData)
          (withCurrent (Some cData) s))).

(** The handlers as decision tables on the answers of the environment. *)
Section Tables.

Context `{runtime : DateRuntime} (env : Env).

Definition fetchAll_table (c : Coords) (s : State)
  : Completion unit * State * list Call :=
  let currentUrl := urlByCoords env Current (lat c) (lon c) in
  let forecastUrl := urlByCoords env Forecast (lat c) (lon c) in
  if negb (canFetch env) then
    (Returned tt, withError (Some msgMissingKey) s, [])
  else
    match fetch env currentUrl, fetch env forecastUrl with
    | Resolved (Ok (Resolved cData)), Resolved (Ok (Resolved fData)) =>
        (Returned tt, storeWeather cData fData s,
         [Fetch currentUrl; Fetch forecastUrl])
    | _, _ =>
        (Returned tt, withError (Some msgFetchFailed) s,
         [Fetch currentUrl; Fetch forecastUrl])
    end.

Definition initByGeolocation_table (s : State)
  : Completion unit * State * list Call :=
  let s0 := withLoading true (withError None s) in
  match requestForegroundPermissionsAsync env with
  | Rejected _ =>
      (Returned tt, withLoading false (withError (Some msgNoLocation) s0),
       [RequestForegroundPermissions])
  | Resolved status =>
      if negb (String.eqb status "granted") then
        (Returned tt,
         withLoading false
           (withLoading false (withError (Some msgPermissionDenied) s0)),
         [RequestForegroundPermissions])
      else
        match getCurrentPositionAsync env with
        | Rejected _ =>
            (Returned tt,
             withLoading false (withError (Some msgNoLocation) s0),
             [RequestForegroundPermissions; GetCurrentPosition])
        | Resolved location =>
            let c := {| lat := latitude location;
                        lon := longitude location |} in
            let run := fetchAll_table c (withCoords (Some c) s0) in
            (Returned tt, withLoading false (snd (fst run)),
             RequestForegroundPermissions :: GetCurrentPosition :: snd run)
        end
  end.

Definition searchByCity_table (s : State)
  : Completion unit * State * list Call :=
  if negb (truthy (trim (query s))) then (Returned tt, s, [])
  else
    let s0 := withLoading true (withError None s) in
    let currentUrl := urlByCity env (query s) in
    match fetch env currentUrl with
    | Resolved (Ok (Resolved cData)) =>
        let s1 := withCityLabel (WeatherData.name cData)
                    (withCurrent (Some cData) (withCoords None s0)) in
        let forecastUrl :=
          urlByCoords env Forecast (lat (WeatherData.coord cData))
                      (lon (WeatherData.coord cData)) in
        match fetch env forecastUrl with
        | Resolved (Ok (Resolved fData)) =>
            (Returned tt,
             withLoading false
               (withHourlyForecast (processHourlyForecast (listOrEmpty fData))
                  (withForecast (compactForecast (listOrEmpty fData)) s1)),
             [KeyboardDismiss; Fetch currentUrl; Fetch forecastUrl])
        | _ =>
            (Returned tt,
             withLoading false (withError (Some msgCityNotFound) s1),
             [KeyboardDismiss; Fetch currentUrl; Fetch forecastUrl])
        end
    | _ =>
        (Returned tt,
         withLoading false (withError (Some msgCityNotFound) s0),
         [KeyboardDismiss; Fetch currentUrl])
    end.

Definition onRefresh_table (s : State)
  : Completion unit * State * list Call :=
  let s0 := withRefreshing true s in
  match coords s with
  | Some c =>
      let run := fetchAll_table c (withError None (withLoading true s0)) in
      (Returned tt,
       withRefreshing false (withLoading false (snd (fst run))), snd run)
  | None =>
      if negb (truthy (query s)) then
        (Returned tt, withRefreshing false s0, [])
      else
        let run := searchByCity_table (withError None (withLoading true s0)) in
        (Returned tt,
         withRefreshing false (withLoading false (snd (fst run))), snd run)
  end.

End Tables.

(** A [fetch] that succeeds with a parsed body. *)
Definition fetched {B : Type} (o : Outcome (Response B)) (body : B) : Prop :=
  o = Resolved (Ok (Resolved body)).

(** A query with something other than white space in it. *)
Definition nonBlank (q : JsString) : bool := negb (forallb isWhiteSpace q).

(** The calls of a run. *)
Definition callsOf {A : Type} (run : Completion A * State * list Call)
  : list Call := snd run.

(** The state a run leaves. *)
Definition stateOf {A : Type} (run : Completion A * State * list Call)
  : State := snd (fst run).


(** The build has no API key. *)
Definition keylessEnv : Env :=
  {| API_KEY := None;
     requestForegroundPermissionsAsync := Resolved "granted"%string;
     getCurrentPositionAsync :=
       Resolved {| latitude := -(33 # 2); longitude := -(681 # 10) |};
     fetch := fun url =>
       match endpoint url as e return Outcome (Response (Body e)) with
       | Current => Resolved (NotOk (Resolved (Some "Invalid API key"%string)))
       | Forecast => Resolved (NotOk (Resolved (Some "Invalid API key"%string)))
       end |}.

(** A state with data loaded by geolocation. *)
Definition loadedState : State := mounted (runtime := UTC_runtime) onlineEnv.

(** * Properties *)

(** ** [Math.round], [Math.min], [Math.max] *)



Lemma Math_min_cases (a b : Q) : Math.min a b = a \/ Math.min a b = b.
Proof.
  unfold Math.min, Qmin, GenericMinMax.gmin.
  destruct (a ?= b)%Q; auto.
Qed.

Lemma Math_max_cases (a b : Q) : Math.max a b = a \/ Math.max a b = b.
Proof.
  unfold Math.max, Qmax, GenericMinMax.gmax.
  destruct (a ?= b)%Q; auto.
Qed.

Lemma Math_min_le_l (a b : Q) : (Math.min a b <= a)%Q.
Proof. apply Q.le_min_l. Qed.

Lemma Math_min_le_r (a b : Q) : (Math.min a b <= b)%Q.
Proof. apply Q.le_min_r. Qed.

Lemma Math_max_ge_l (a b : Q) : (a <= Math.max a b)%Q.
Proof. apply Q.le_max_l. Qed.

Lemma Math_max_ge_r (a b : Q) : (b <= Math.max a b)%Q.
Proof. apply Q.le_max_r. Qed.

(** ** Unit conversion *)




(** ** Condition-to-asset mapping *)

Lemma getProperty_absent {A : Type} (literal : list (string * A)) (key : string) :
  ownProperty literal key = None ->
  inheritedKey key = false ->
  getProperty literal key = Undefined.
Proof.
  intros Hown Hproto. unfold getProperty.
  rewrite Hown. unfold inheritedKey in Hproto. rewrite Hproto. reflexivity.
Qed.

(** Away from the member names of [Object.prototype], a keyword that
    neither map owns gets the fallback icon and the default image; so does
    the [undefined] keyword. *)
Lemma assets_fallback (weatherMain : option string) :
  inheritedKey (String_of_keyword weatherMain) = false ->
  (ownProperty iconMap (String_of_keyword weatherMain) = None ->
   getWeatherIcon weatherMain = Mapped fallbackIcon) /\
  (ownProperty imageMap (String_of_keyword weatherMain) = None ->
   getWeatherImage weatherMain = Mapped defaultImage).
Proof.
  intro Hproto. split; intro Hown.
  - unfold getWeatherIcon. rewrite (getProperty_absent _ _ Hown Hproto). reflexivity.
  - unfold getWeatherImage. rewrite (getProperty_absent _ _ Hown Hproto). reflexivity.
Qed.

Lemma assets_fallback_undefined :
  getWeatherIcon None = Mapped fallbackIcon /\
  getWeatherImage None = Mapped defaultImage.
Proof. split; reflexivity. Qed.

(** Every own value of the icon map is a non-empty string, so an owned
    keyword gets the icon the map lists for it. *)
Lemma getWeatherIcon_owned (weatherMain : option string) (icon : string) :
  ownProperty iconMap (String_of_keyword weatherMain) = Some icon ->
  getWeatherIcon weatherMain = Mapped icon.
Proof.
  intro Hown. unfold getWeatherIcon, getProperty. rewrite Hown.
  assert (Hne : String.eqb icon "" = false).
  { revert Hown. generalize (String_of_keyword weatherMain). intro key.
    unfold iconMap. cbn [ownProperty].
    repeat (destruct (String.eqb _ key);
            [ intro E; injection E as <-; reflexivity | ]).
    discriminate. }
  rewrite Hne. reflexivity.
Qed.

(** C5: the keyword ["constructor"] is in neither static map, yet
    [getWeatherIcon] and [getWeatherImage] return the member of
    [Object.prototype] of that name instead of their fallbacks. *)
Theorem assets_constructor_keyword :
  ownProperty iconMap "constructor" = None /\
  ownProperty imageMap "constructor" = None /\
  getWeatherIcon (Some "constructor"%string) = PrototypeMember "constructor" /\
  getWeatherImage (Some "constructor"%string) = PrototypeMember "constructor" /\
  getWeatherIcon (Some "constructor"%string) <> Mapped fallbackIcon /\
  getWeatherImage (Some "constructor"%string) <> Mapped defaultImage.
Proof.
  repeat split; try reflexivity; discriminate.
Qed.

(** ** Hourly slice *)

Section HourlyFacts.

Context `{runtime : DateRuntime}.

Lemma length_firstn_8 {A : Type} (l : list A) :
  List.length (firstn 8 l) = Nat.min 8 (List.length l).
Proof. apply length_firstn. Qed.

(** C3: [processHourlyForecast] returns [null] exactly for the inputs
    of fewer than two samples; on two samples or more it returns a
    result. *)
Theorem processHourlyForecast_null_iff (items : ForecastAPIList) :
  (processHourlyForecast items = None <-> (List.length items < 2)%nat) /\
  ((2 <= List.length items)%nat ->
   exists h : HourlyData, processHourlyForecast items = Some h).
Proof.
  unfold processHourlyForecast.
  rewrite length_firstn_8.
  destruct (Nat.eqb_spec (List.length items) 0) as [E | E].
  - split; [ split; intros; [ lia | reflexivity ] | lia ].
  - destruct (Nat.ltb_spec (Nat.min 8 (List.length items)) 2) as [L | L].
    + split; [ split; intros; [ lia | reflexivity ] | lia ].
    + split; [ split; intros; [ discriminate | lia ] | eauto ].
Qed.

(** C4: on [n >= 2] samples the result has [min n 8] labels, one dataset
    of [min n 8] rounded temperatures and [min n 8] icons, and the entries
    at index [i] are the label, the rounded temperature and the icon of
    the [i]-th sample of the input. *)
Theorem processHourlyForecast_first_eight (items : ForecastAPIList) :
  (2 <= List.length items)%nat ->
  exists (h : HourlyData) (d : Dataset),
    processHourlyForecast items = Some h /\
    datasets h = [d] /\
    List.length (labels h) = Nat.min (List.length items) 8 /\
    List.length (data d) = Nat.min (List.length items) 8 /\
    List.length (icons h) = Nat.min (List.length items) 8 /\
    (forall i : nat,
        (i < Nat.min (List.length items) 8)%nat ->
        exists item : ForecastAPIItem.t,
          nth_error items i = Some item /\
          nth_error (labels h) i = Some (hourLabel item) /\
          nth_error (data d) i = Some (roundedTemp item) /\
          nth_error (icons h) i = Some (conditionIcon item)) /\
    (forall i : nat,
        (Nat.min (List.length items) 8 <= i)%nat ->
        nth_error (labels h) i = None /\
        nth_error (data d) i = None /\
        nth_error (icons h) i = None).
Proof.
  intro Hn.
  unfold processHourlyForecast.
  rewrite length_firstn_8.
  destruct (Nat.eqb_spec (List.length items) 0) as [E | E]; [ lia | ].
  destruct (Nat.ltb_spec (Nat.min 8 (List.length items)) 2) as [L | L]; [ lia | ].
  exists {| labels := map hourLabel (firstn 8 items);
            datasets := [ {| data := map roundedTemp (firstn 8 items) |} ];
            icons := map conditionIcon (firstn 8 items) |}.
  exists {| data := map roundedTemp (firstn 8 items) |}.
  cbn [datasets labels data icons].
  split; [ reflexivity | ].
  split; [ reflexivity | ].
  rewrite !length_map, length_firstn_8.
  split; [ apply Nat.min_comm | ].
  split; [ apply Nat.min_comm | ].
  split; [ apply Nat.min_comm | ].
  split.
  - intros i Hi.
    destruct (nth_error items i) as [item | ] eqn:Hitem.
    + exists item. split; [ reflexivity | ].
      assert (Hf : nth_error (firstn 8 items) i = Some item).
      { rewrite nth_error_firstn.
        destruct (Nat.ltb_spec i 8); [ exact Hitem | lia ]. }
      rewrite !nth_error_map, Hf. auto.
    + apply nth_error_None in Hitem. lia.
  - intros i Hi.
    repeat split; apply nth_error_None;
      rewrite length_map, length_firstn_8; lia.
Qed.

End HourlyFacts.

(** ** Lists *)

Section ListFacts.

Context {A : Type}.

Lemma firstn_incl (n : nat) (l : list A) (x : A) :
  In x (firstn n l) -> In x l.
Proof.
  revert n. induction l as [ | y l IH]; intros [ | n]; cbn; try tauto.
  intros [E | H]; [ left; exact E | right; exact (IH n H) ].
Qed.

Lemma StronglySorted_firstn (R : A -> A -> Prop) (n : nat) (l : list A) :
  StronglySorted R l -> StronglySorted R (firstn n l).
Proof.
  intro Hs. revert n.
  induction Hs as [ | x l Hs IH Hx]; intros [ | n]; cbn; try constructor.
  - apply IH.
  - rewrite Forall_forall in *. intros y Hy.
    apply Hx. exact (firstn_incl n l y Hy).
Qed.

Lemma filter_length_perm (f : A -> bool) (l l' : list A) :
  Permutation l l' ->
  List.length (filter f l) = List.length (filter f l').
Proof.
  induction 1 as [ | x l l' _ IH | x y l | l l' l'' _ IH1 _ IH2]; cbn.
  - reflexivity.
  - destruct (f x); cbn; congruence.
  - destruct (f x), (f y); reflexivity.
  - congruence.
Qed.

End ListFacts.

(** ** [Array.prototype.sort] *)

Section ArraySortFacts.

Context {A : Type} (key : A -> Z).

Let compare (a b : A) : Z := key a - key b.

Lemma sortInsert_perm (x : A) (l : list A) :
  Permutation (sortInsert compare x l) (x :: l).
Proof.
  induction l as [ | y l IH]; cbn [sortInsert].
  - apply Permutation_refl.
  - destruct (compare x y <=? 0).
    + apply Permutation_refl.
    + eapply perm_trans; [ apply perm_skip, IH | apply perm_swap ].
Qed.

Lemma Array_sort_perm (l : list A) :
  Permutation (Array_sort compare l) l.
Proof.
  induction l as [ | x l IH]; cbn.
  - constructor.
  - eapply perm_trans; [ apply sortInsert_perm | apply perm_skip, IH ].
Qed.

Lemma sortInsert_ascending (x : A) (l : list A) :
  ascending key l -> ascending key (sortInsert compare x l).
Proof.
  unfold ascending.
  induction l as [ | y l IH]; intro Hs; cbn [sortInsert].
  - repeat constructor.
  - inversion Hs as [ | ? ? Hl Hy]; subst.
    destruct (Z.leb_spec (compare x y) 0) as [Hle | Hgt]; unfold compare in *.
    + constructor; [ exact Hs | ].
      constructor; [ lia | ].
      eapply Forall_impl; [ | exact Hy ]. cbn. intros; lia.
    + constructor; [ apply IH, Hl | ].
      eapply Permutation_Forall;
        [ apply Permutation_sym, sortInsert_perm | ].
      constructor; [ lia | exact Hy ].
Qed.

Lemma Array_sort_ascending (l : list A) :
  ascending key (Array_sort compare l).
Proof.
  induction l as [ | x l IH]; cbn.
  - constructor.
  - apply sortInsert_ascending, IH.
Qed.

(** An ascending list with pairwise distinct keys is strictly ascending. *)
Lemma ascending_strict (l : list A) :
  ascending key l -> NoDup (map key l) ->
  StronglySorted (fun a b => key a < key b) l.
Proof.
  induction 1 as [ | x l Hs IH Hx]; intro Hnd.
  - constructor.
  - cbn in Hnd. inversion Hnd as [ | ? ? Hnotin Hnd']; subst.
    constructor; [ apply IH, Hnd' | ].
    rewrite Forall_forall in *. intros y Hy.
    specialize (Hx y Hy).
    assert (key x <> key y).
    { intro E. apply Hnotin. rewrite E. apply in_map, Hy. }
    lia.
Qed.

(** In a strictly ascending list the first [n] elements are those that
    have fewer than [n] elements before them. *)
Lemma firstn_strict_count (n : nat) (l : list A) (x : A) :
  StronglySorted (fun a b => key a < key b) l ->
  In x l ->
  (In x (firstn n l) <->
   (List.length (filter (fun y => (key y <? key x)%Z) l) < n)%nat).
Proof.
  intro Hs. revert n.
  induction Hs as [ | y l Hs IH Hy]; intros n Hin; [ destruct Hin | ].
  rewrite Forall_forall in Hy.
  destruct Hin as [-> | Hin].
  - (* [x] is the head: no element is before it *)
    assert (Hnone : filter (fun y => key y <? key x) (x :: l) = []).
    { cbn [filter]. rewrite Z.ltb_irrefl.
      clear IH Hs. induction l as [ | z l IHl]; [ reflexivity | ].
      cbn [filter]. destruct (Z.ltb_spec (key z) (key x)) as [Hlt | _].
      - specialize (Hy z (or_introl eq_refl)). lia.
      - apply IHl. intros w Hw. apply Hy. right. exact Hw. }
    rewrite Hnone. cbn [List.length].
    destruct n as [ | n]; cbn [firstn In]; split; intros; try lia; tauto.
  - specialize (Hy x Hin) as Hyx.
    cbn [filter]. destruct (Z.ltb_spec (key y) (key x)) as [_ | Hge]; [ | lia ].
    cbn [List.length].
    destruct n as [ | n]; cbn [firstn].
    + split; [ intros [] | lia ].
    + rewrite <- Nat.succ_lt_mono, <- (IH n Hin).
      split; [ intros [-> | H]; [ lia | exact H ] | intro H; right; exact H ].
Qed.

(** A list has one strictly ascending arrangement. *)
Lemma strict_ascending_unique (l1 l2 : list A) :
  StronglySorted (fun a b => key a < key b) l1 ->
  StronglySorted (fun a b => key a < key b) l2 ->
  Permutation l1 l2 ->
  l1 = l2.
Proof.
  intro H1. revert l2.
  induction H1 as [ | x l1 Hs1 IH Hx]; intros l2 H2 Hp.
  - apply Permutation_nil in Hp. subst. reflexivity.
  - destruct H2 as [ | y l2 Hs2 Hy].
    + apply Permutation_sym, Permutation_nil in Hp. discriminate.
    + rewrite Forall_forall in Hx, Hy.
      assert (Hxy : x = y).
      { assert (Hx2 : In x (y :: l2))
          by (apply (Permutation_in _ Hp); left; reflexivity).
        assert (Hy1 : In y (x :: l1))
          by (apply (Permutation_in _ (Permutation_sym Hp)); left; reflexivity).
        destruct Hx2 as [E | Hx2]; [ congruence | ].
        destruct Hy1 as [E | Hy1]; [ congruence | ].
        specialize (Hx y Hy1). specialize (Hy x Hx2). lia. }
      subst y. f_equal. apply IH; [ exact Hs2 | ].
      exact (Permutation_cons_inv Hp).
Qed.

End ArraySortFacts.

(** ** Day compaction *)

Lemma fold_min_isMinimum (rest : list Q) (a : Q) :
  isMinimumOf (fold_left Math.min rest a) (a :: rest).
Proof.
  revert a. induction rest as [ | b rest IH]; intro a; cbn [fold_left].
  - split; [ left; reflexivity | ].
    intros x [<- | []]. apply Qle_refl.
  - destruct (IH (Math.min a b)) as [Hin Hle]. split.
    + destruct Hin as [E | Hin]; [ | right; right; exact Hin ].
      rewrite <- E. destruct (Math_min_cases a b) as [-> | ->]; cbn; auto.
    + intros x [<- | [<- | Hx]].
      * eapply Qle_trans; [ apply Hle; left; reflexivity | apply Math_min_le_l ].
      * eapply Qle_trans; [ apply Hle; left; reflexivity | apply Math_min_le_r ].
      * apply Hle. right. exact Hx.
Qed.

Lemma fold_max_isMaximum (rest : list Q) (a : Q) :
  isMaximumOf (fold_left Math.max rest a) (a :: rest).
Proof.
  revert a. induction rest as [ | b rest IH]; intro a; cbn [fold_left].
  - split; [ left; reflexivity | ].
    intros x [<- | []]. apply Qle_refl.
  - destruct (IH (Math.max a b)) as [Hin Hle]. split.
    + destruct Hin as [E | Hin]; [ | right; right; exact Hin ].
      rewrite <- E. destruct (Math_max_cases a b) as [-> | ->]; cbn; auto.
    + intros x [<- | [<- | Hx]].
      * eapply Qle_trans; [ apply Math_max_ge_l | apply Hle; left; reflexivity ].
      * eapply Qle_trans; [ apply Math_max_ge_r | apply Hle; left; reflexivity ].
      * apply Hle. right. exact Hx.
Qed.

Section CompactionFacts.

Context `{runtime : DateRuntime}.

Lemma DateString_eqb_refl (k : DateString) : DateString_eqb k k = true.
Proof. apply DateString_eqb_eq. reflexivity. Qed.

Lemma DateString_eqb_spec (a b : DateString) :
  reflect (a = b) (DateString_eqb a b).
Proof.
  destruct (DateString_eqb a b) eqn:E; constructor.
  - apply DateString_eqb_eq, E.
  - intro H. apply DateString_eqb_eq in H. congruence.
Qed.

(** *** [byDay] as a map *)

Lemma byDay_get_set_same (m : ByDay) (k : DateString) (b : Bucket.t) :
  byDay_get (byDay_set m k b) k = Some b.
Proof.
  induction m as [ | [k0 b0] m IH]; cbn.
  - rewrite DateString_eqb_refl. reflexivity.
  - destruct (DateString_eqb k0 k) eqn:E; cbn; rewrite E; [ reflexivity | exact IH ].
Qed.

Lemma byDay_get_set_other (m : ByDay) (k k' : DateString) (b : Bucket.t) :
  k' <> k -> byDay_get (byDay_set m k b) k' = byDay_get m k'.
Proof.
  intro Hne. induction m as [ | [k0 b0] m IH]; cbn.
  - destruct (DateString_eqb_spec k k'); [ congruence | reflexivity ].
  - destruct (DateString_eqb_spec k0 k) as [-> | Hk0]; cbn.
    + destruct (DateString_eqb_spec k k'); [ congruence | reflexivity ].
    + destruct (DateString_eqb_spec k0 k'); [ reflexivity | exact IH ].
Qed.

Lemma byDay_get_None (m : ByDay) (k : DateString) :
  byDay_get m k = None <-> ~ In k (map fst m).
Proof.
  induction m as [ | [k0 b0] m IH]; cbn.
  - tauto.
  - destruct (DateString_eqb_spec k0 k) as [-> | Hne].
    + split; [ discriminate | intro H; exfalso; apply H; left; reflexivity ].
    + rewrite IH. tauto.
Qed.

Lemma byDay_get_In (m : ByDay) (k : DateString) (b : Bucket.t) :
  byDay_get m k = Some b -> In (k, b) m.
Proof.
  induction m as [ | [k0 b0] m IH]; cbn; [ discriminate | ].
  destruct (DateString_eqb_spec k0 k) as [-> | Hne].
  - intro E. injection E as ->. left. reflexivity.
  - intro E. right. apply IH, E.
Qed.

Lemma byDay_In_get (m : ByDay) (k : DateString) (b : Bucket.t) :
  NoDup (map fst m) -> In (k, b) m -> byDay_get m k = Some b.
Proof.
  induction m as [ | [k0 b0] m IH]; cbn; [ tauto | ].
  intros Hnd Hin. inversion Hnd as [ | ? ? Hnotin Hnd']; subst.
  destruct Hin as [E | Hin].
  - injection E as -> ->. rewrite DateString_eqb_refl. reflexivity.
  - destruct (DateString_eqb_spec k0 k) as [-> | Hne].
    + exfalso. apply Hnotin. apply (in_map fst) in Hin. exact Hin.
    + apply IH; assumption.
Qed.

(** A write keeps the keys when the key is there and adds it last when
    it is not. *)
Lemma byDay_set_keys (m : ByDay) (k : DateString) (b : Bucket.t) :
  map fst (byDay_set m k b)
  = match byDay_get m k with
    | Some _ => map fst m
    | None => map fst m ++ [k]
    end.
Proof.
  induction m as [ | [k0 b0] m IH]; cbn; [ reflexivity | ].
  destruct (DateString_eqb k0 k); cbn; [ reflexivity | ].
  rewrite IH. destruct (byDay_get m k); reflexivity.
Qed.

Lemma byDay_set_NoDup (m : ByDay) (k : DateString) (b : Bucket.t) :
  NoDup (map fst m) -> NoDup (map fst (byDay_set m k b)).
Proof.
  intro Hnd. rewrite byDay_set_keys.
  destruct (byDay_get m k) eqn:E; [ exact Hnd | ].
  apply byDay_get_None in E.
  eapply Permutation_NoDup; [ apply Permutation_cons_append | ].
  constructor; assumption.
Qed.

(** *** The grouping loop *)

Lemma groupByDay_snoc (items : ForecastAPIList) (x : ForecastAPIItem.t) :
  groupByDay (items ++ [x]) = addSample (groupByDay items) x.
Proof. unfold groupByDay. rewrite fold_left_app. reflexivity. Qed.

Lemma summarize_snoc (samples : list ForecastAPIItem.t) (b : Bucket.t)
      (x : ForecastAPIItem.t) :
  summarize samples = Some b ->
  summarize (samples ++ [x])
  = Some {| Bucket.dt := Bucket.dt b;
            Bucket.temp_min := Math.min (Bucket.temp_min b) (sampleMin x);
            Bucket.temp_max := Math.max (Bucket.temp_max b) (sampleMax x);
            Bucket.weather := Bucket.weather b |}.
Proof.
  destruct samples as [ | first rest]; cbn; [ discriminate | ].
  intro E. injection E as <-. cbn.
  rewrite !map_app, !fold_left_app. reflexivity.
Qed.

(** After the loop, the bucket stored under a day is the summary of
    that day's samples. *)
Lemma groupByDay_get (items : ForecastAPIList) (k : DateString) :
  byDay_get (groupByDay items) k = summarize (samplesOf k items).
Proof.
  induction items as [ | x items IH] using rev_ind; [ reflexivity | ].
  rewrite groupByDay_snoc. unfold samplesOf in *. rewrite filter_app.
  cbn [filter]. unfold addSample.
  destruct (DateString_eqb_spec (dayKeyOf x) k) as [E | Hne].
  - unfold sameDay at 2. rewrite E, DateString_eqb_refl.
    rewrite IH.
    destruct (summarize (filter (sameDay k) items)) as [b | ] eqn:Hs.
    + rewrite byDay_get_set_same.
      symmetry. apply summarize_snoc, Hs.
    + rewrite byDay_get_set_same.
      destruct (filter (sameDay k) items); [ reflexivity | discriminate ].
  - unfold sameDay at 2.
    destruct (DateString_eqb_spec (dayKeyOf x) k); [ congruence | ].
    rewrite app_nil_r.
    destruct (byDay_get (groupByDay items) (dayKeyOf x));
      (rewrite byDay_get_set_other; [ exact IH | congruence ]).
Qed.

Lemma groupByDay_NoDup (items : ForecastAPIList) :
  NoDup (map fst (groupByDay items)).
Proof.
  induction items as [ | x items IH] using rev_ind; [ constructor | ].
  rewrite groupByDay_snoc. unfold addSample.
  destruct (byDay_get (groupByDay items) (dayKeyOf x));
    apply byDay_set_NoDup, IH.
Qed.

Lemma samplesOf_nonempty (k : DateString) (items : ForecastAPIList) :
  samplesOf k items <> [] <->
  exists item, In item items /\ dayKeyOf item = k.
Proof.
  unfold samplesOf. split.
  - destruct (filter (sameDay k) items) as [ | s l] eqn:E; [ congruence | ].
    intros _. assert (Hin : In s (filter (sameDay k) items)) by (rewrite E; left; reflexivity).
    apply filter_In in Hin. destruct Hin as [Hin Hk].
    exists s. split; [ exact Hin | ]. apply DateString_eqb_eq, Hk.
  - intros (item & Hin & Hk) E.
    assert (Hf : In item (filter (sameDay k) items)).
    { apply filter_In. split; [ exact Hin | ].
      unfold sameDay. rewrite Hk. apply DateString_eqb_refl. }
    rewrite E in Hf. exact Hf.
Qed.

(** The keys of [byDay] are the days that have a sample. *)
Lemma groupByDay_keys (items : ForecastAPIList) (k : DateString) :
  In k (map fst (groupByDay items)) <->
  exists item, In item items /\ dayKeyOf item = k.
Proof.
  rewrite <- samplesOf_nonempty.
  pose proof (byDay_get_None (groupByDay items) k) as Hnone.
  rewrite groupByDay_get in Hnone.
  destruct (samplesOf k items) as [ | s l] eqn:E; cbn in Hnone.
  - split; [ intro H; exfalso; apply (proj1 Hnone); [ reflexivity | exact H ] | congruence ].
  - split; [ discriminate | intros _ ].
    destruct (in_dec (fun a b => match DateString_eqb_spec a b with
                                 | ReflectT _ e => left e
                                 | ReflectF _ n => right n
                                 end) k (map fst (groupByDay items))) as [H | H];
      [ exact H | ].
    apply Hnone in H. discriminate.
Qed.

(** What the loop stores: under each day that has samples, the
    timestamp and first condition of the day's first sample and the
    folded extremes of the day. *)
Lemma groupByDay_bucket (items : ForecastAPIList) (k : DateString) (b : Bucket.t) :
  In (k, b) (groupByDay items) ->
  exists first rest,
    samplesOf k items = first :: rest /\
    summarize (first :: rest) = Some b /\
    bucketDay b = k.
Proof.
  intro Hin.
  apply (byDay_In_get _ _ _ (groupByDay_NoDup items)) in Hin.
  rewrite groupByDay_get in Hin.
  destruct (samplesOf k items) as [ | first rest] eqn:E; [ discriminate | ].
  exists first, rest. split; [ reflexivity | ]. split; [ exact Hin | ].
  cbn in Hin. injection Hin as <-. unfold bucketDay. cbn.
  assert (Hf : In first (samplesOf k items)) by (rewrite E; left; reflexivity).
  apply filter_In in Hf. destruct Hf as [_ Hk].
  apply DateString_eqb_eq, Hk.
Qed.

Lemma groupByDay_keys_bucketDay (items : ForecastAPIList) :
  map fst (groupByDay items)
  = map bucketDay (Object_values (groupByDay items)).
Proof.
  unfold Object_values. rewrite map_map.
  apply map_ext_in. intros [k b] Hin.
  destruct (groupByDay_bucket items k b Hin) as (_ & _ & _ & _ & E).
  cbn. symmetry. exact E.
Qed.

Lemma NoDup_map_compose {A B C : Type} (f : B -> C) (g : A -> B) (l : list A) :
  NoDup (map (fun x => f (g x)) l) -> NoDup (map g l).
Proof.
  induction l as [ | x l IH]; cbn; intro H; [ constructor | ].
  inversion H as [ | ? ? Hnotin Hnd]; subst.
  constructor; [ | apply IH, Hnd ].
  intro Hin. apply Hnotin.
  apply in_map_iff in Hin. destruct Hin as (y & E & Hy).
  apply in_map_iff. exists y. split; [ congruence | exact Hy ].
Qed.

(** Two buckets never carry the same timestamp. *)
Lemma groupByDay_timestamps_NoDup (items : ForecastAPIList) :
  NoDup (map Bucket.dt (Object_values (groupByDay items))).
Proof.
  apply (NoDup_map_compose (fun t => toDateString (t * 1000))).
  change (NoDup (map bucketDay (Object_values (groupByDay items)))).
  rewrite <- groupByDay_keys_bucketDay. apply groupByDay_NoDup.
Qed.

(** *** The sorted, truncated list of buckets *)

Lemma sortedBuckets_perm (items : ForecastAPIList) :
  Permutation (sortedBuckets items) (Object_values (groupByDay items)).
Proof. apply (Array_sort_perm Bucket.dt). Qed.

Lemma sortedBuckets_strict (items : ForecastAPIList) :
  StronglySorted (fun a b => Bucket.dt a < Bucket.dt b) (sortedBuckets items).
Proof.
  apply ascending_strict.
  - apply (Array_sort_ascending Bucket.dt).
  - eapply Permutation_NoDup;
      [ apply Permutation_map, Permutation_sym, sortedBuckets_perm | ].
    apply groupByDay_timestamps_NoDup.
Qed.

(** The order of the buckets does not depend on the sorting algorithm:
    every ascending arrangement of the buckets is the one [Array_sort]
    returns. *)
Lemma sortedBuckets_unique (items : ForecastAPIList) (l : list Bucket.t) :
  Permutation l (Object_values (groupByDay items)) ->
  ascending Bucket.dt l ->
  l = sortedBuckets items.
Proof.
  intros Hp Hasc.
  apply (strict_ascending_unique Bucket.dt).
  - apply ascending_strict; [ exact Hasc | ].
    eapply Permutation_NoDup;
      [ apply Permutation_map, Permutation_sym, Hp | ].
    apply groupByDay_timestamps_NoDup.
  - apply sortedBuckets_strict.
  - eapply perm_trans; [ exact Hp | apply Permutation_sym, sortedBuckets_perm ].
Qed.

Lemma compactForecast_unfold (items : ForecastAPIList) :
  compactForecast items = map toForecastItem (firstn 5 (sortedBuckets items)).
Proof. reflexivity. Qed.

Lemma compactForecast_timestamps (items : ForecastAPIList) :
  map ForecastItem.dt (compactForecast items)
  = map Bucket.dt (firstn 5 (sortedBuckets items)).
Proof. rewrite compactForecast_unfold, map_map. reflexivity. Qed.

(** Every entry of the output comes from a bucket of the loop. *)
Lemma compactForecast_entry (items : ForecastAPIList) (o : ForecastItem.t) :
  In o (compactForecast items) ->
  exists b, o = toForecastItem b /\
            In b (firstn 5 (sortedBuckets items)) /\
            In (bucketDay b, b) (groupByDay items).
Proof.
  rewrite compactForecast_unfold. intro Hin.
  apply in_map_iff in Hin. destruct Hin as (b & <- & Hb).
  exists b. split; [ reflexivity | ]. split; [ exact Hb | ].
  apply firstn_incl in Hb.
  apply (Permutation_in _ (sortedBuckets_perm items)) in Hb.
  unfold Object_values in Hb. apply in_map_iff in Hb.
  destruct Hb as ([k b'] & E & Hin). cbn in E. subst b'.
  destruct (groupByDay_bucket items k b Hin) as (_ & _ & _ & _ & Ek).
  rewrite Ek. exact Hin.
Qed.

(** C2: the output has at most five entries, and their timestamps are
    strictly ascending. *)
Theorem compactForecast_length_sorted (items : ForecastAPIList) :
  (List.length (compactForecast items) <= 5)%nat /\
  StronglySorted Z.lt (map ForecastItem.dt (compactForecast items)).
Proof.
  split.
  - rewrite compactForecast_unfold, length_map. apply firstn_le_length.
  - rewrite compactForecast_timestamps.
    pose proof (StronglySorted_firstn _ 5 _ (sortedBuckets_strict items)) as Hs.
    induction Hs as [ | b l Hs IH Hb]; cbn; constructor.
    + exact IH.
    + rewrite Forall_forall in *. intros t Ht.
      apply in_map_iff in Ht. destruct Ht as (b' & <- & Hb').
      apply Hb, Hb'.
Qed.

(** C7: when every sample has [temp_min <= temp_max], so has every entry
    of the output. *)
Theorem compactForecast_min_le_max (items : ForecastAPIList) :
  (forall item, In item items -> (sampleMin item <= sampleMax item)%Q) ->
  forall o, In o (compactForecast items) ->
            (ForecastItem.temp_min o <= ForecastItem.temp_max o)%Q.
Proof.
  intros Hitems o Ho.
  destruct (compactForecast_entry items o Ho) as (b & -> & _ & Hb).
  destruct (groupByDay_bucket items _ b Hb) as (first & rest & Hs & Hsum & _).
  cbn in Hsum. injection Hsum as <-. cbn.
  destruct (fold_min_isMinimum (map sampleMin rest) (sampleMin first)) as [_ Hmin].
  destruct (fold_max_isMaximum (map sampleMax rest) (sampleMax first)) as [_ Hmax].
  assert (Hfirst : In first items).
  { assert (H : In first (samplesOf (bucketDay
      {| Bucket.dt := ForecastAPIItem.dt first;
         Bucket.temp_min := fold_left Math.min (map sampleMin rest) (sampleMin first);
         Bucket.temp_max := fold_left Math.max (map sampleMax rest) (sampleMax first);
         Bucket.weather := hd_error (ForecastAPIItem.weather first) |}) items))
      by (rewrite Hs; left; reflexivity).
    apply filter_In in H. tauto. }
  eapply Qle_trans; [ apply Hmin; left; reflexivity | ].
  eapply Qle_trans; [ apply Hitems, Hfirst | ].
  apply Hmax. left. reflexivity.
Qed.

End CompactionFacts.

Section PerDayFacts.

Context `{runtime : DateRuntime}.

Lemma distinctDays_In (items : ForecastAPIList) (k : DateString) :
  In k (distinctDays items) <->
  exists item, In item items /\ dayKeyOf item = k.
Proof.
  induction items as [ | x items IH]; cbn [distinctDays In].
  - split; [ tauto | intros (? & [] & _) ].
  - rewrite filter_In, IH. split.
    + intros [E | [(item & Hin & Hk) _]].
      * exists x. auto.
      * exists item. auto.
    + intros (item & [-> | Hin] & Hk); [ left; exact Hk | ].
      destruct (DateString_eqb_spec k (dayKeyOf x)) as [-> | Hne].
      * left. reflexivity.
      * right. split; [ exists item; auto | reflexivity ].
Qed.

Lemma distinctDays_NoDup (items : ForecastAPIList) :
  NoDup (distinctDays items).
Proof.
  induction items as [ | x items IH]; cbn [distinctDays]; constructor.
  - rewrite filter_In. intros [_ H].
    rewrite DateString_eqb_refl in H. discriminate.
  - apply NoDup_filter, IH.
Qed.

Lemma groupByDay_keys_perm (items : ForecastAPIList) :
  Permutation (map fst (groupByDay items)) (distinctDays items).
Proof.
  apply NoDup_Permutation.
  - apply groupByDay_NoDup.
  - apply distinctDays_NoDup.
  - intro k. rewrite groupByDay_keys, distinctDays_In. reflexivity.
Qed.

Lemma calendarConsistent_spec (items : ForecastAPIList) :
  calendarConsistent items = true ->
  forall a b c,
    In a items -> In b items -> In c items ->
    ForecastAPIItem.dt a <= ForecastAPIItem.dt b ->
    ForecastAPIItem.dt b <= ForecastAPIItem.dt c ->
    dayKeyOf a = dayKeyOf c ->
    dayKeyOf b = dayKeyOf a.
Proof.
  unfold calendarConsistent. intros H a b c Ha Hb Hc Hab Hbc Hac.
  rewrite forallb_forall in H. specialize (H a Ha).
  rewrite forallb_forall in H. specialize (H b Hb).
  rewrite forallb_forall in H. specialize (H c Hc).
  apply Z.leb_le in Hab, Hbc. rewrite Hab, Hbc, Hac, DateString_eqb_refl in H.
  cbn in H. apply DateString_eqb_eq in H. congruence.
Qed.

(** The first sample of a day that has a bucket. *)
Lemma bucket_first_sample (items : ForecastAPIList) (k : DateString) (b : Bucket.t) :
  In (k, b) (groupByDay items) ->
  exists first,
    In first items /\ dayKeyOf first = k /\
    ForecastAPIItem.dt first = Bucket.dt b.
Proof.
  intro Hin.
  destruct (groupByDay_bucket items k b Hin) as (first & rest & Hs & Hsum & _).
  exists first.
  assert (Hf : In first (samplesOf k items)) by (rewrite Hs; left; reflexivity).
  apply filter_In in Hf. destruct Hf as [Hf Hk].
  split; [ exact Hf | ]. split; [ apply DateString_eqb_eq, Hk | ].
  cbn in Hsum. injection Hsum as <-. reflexivity.
Qed.

(** On a consistent calendar, a day lies before another exactly when
    its bucket carries the smaller timestamp. *)
Lemma dayBefore_buckets (items : ForecastAPIList)
      (k' k : DateString) (b' b : Bucket.t) :
  calendarConsistent items = true ->
  In (k', b') (groupByDay items) ->
  In (k, b) (groupByDay items) ->
  dayBefore items k' k = (Bucket.dt b' <? Bucket.dt b).
Proof.
  intros Hcal Hin' Hin.
  pose proof (calendarConsistent_spec items Hcal) as Hconvex.
  destruct (bucket_first_sample items k' b' Hin') as (f' & Hf' & Hk' & Hdt').
  destruct (bucket_first_sample items k b Hin) as (f & Hf & Hk & Hdt).
  apply Bool.eq_iff_eq_true. unfold dayBefore.
  rewrite andb_true_iff, negb_true_iff, existsb_exists, Z.ltb_lt.
  split.
  - intros [Hne (a & Ha & Hex)].
    apply andb_true_iff in Hex. destruct Hex as [Hka Hex].
    apply existsb_exists in Hex. destruct Hex as (c & Hc & Hex).
    apply andb_true_iff in Hex. destruct Hex as [Hkc Hac].
    apply DateString_eqb_eq in Hka, Hkc. apply Z.ltb_lt in Hac.
    destruct (DateString_eqb_spec k' k) as [ | Hneq]; [ discriminate | ].
    rewrite <- Hdt', <- Hdt.
    destruct (Z.lt_ge_cases (ForecastAPIItem.dt f') (ForecastAPIItem.dt f))
      as [Hlt | Hge]; [ exact Hlt | exfalso ].
    destruct (Z.le_gt_cases (ForecastAPIItem.dt c) (ForecastAPIItem.dt f'))
      as [Hcf | Hfc].
    + (* [a <= c <= f'] with [a] and [f'] of day [k'] *)
      apply Hneq. rewrite <- Hkc, <- Hka.
      symmetry. apply (Hconvex a c f'); try assumption; try lia. congruence.
    + (* [f <= f' <= c] with [f] and [c] of day [k] *)
      apply Hneq. rewrite <- Hk', <- Hk.
      apply (Hconvex f f' c); try assumption; try lia. congruence.
  - intro Hlt. split.
    + destruct (DateString_eqb_spec k' k) as [-> | ]; [ exfalso | reflexivity ].
      pose proof (byDay_In_get _ _ _ (groupByDay_NoDup items) Hin') as G'.
      pose proof (byDay_In_get _ _ _ (groupByDay_NoDup items) Hin) as G.
      rewrite G in G'. injection G' as ->. lia.
    + exists f'. split; [ exact Hf' | ].
      apply andb_true_iff. split; [ apply DateString_eqb_eq, Hk' | ].
      apply existsb_exists. exists f. split; [ exact Hf | ].
      apply andb_true_iff. split; [ apply DateString_eqb_eq, Hk | ].
      apply Z.ltb_lt. lia.
Qed.

Lemma filter_length_fst_snd {K V : Type} (p : K -> bool) (q : V -> bool)
      (m : list (K * V)) :
  (forall k v, In (k, v) m -> p k = q v) ->
  List.length (filter p (map fst m)) = List.length (filter q (map snd m)).
Proof.
  induction m as [ | [k v] m IH]; intro H; cbn; [ reflexivity | ].
  rewrite (H k v (or_introl eq_refl)).
  destruct (q v); cbn; rewrite IH; auto; intros; apply H; right; assumption.
Qed.

(** The buckets timed before the bucket of day [k] are as many as the
    days before [k]. *)
Lemma earlierDays_buckets (items : ForecastAPIList) (k : DateString) (b : Bucket.t) :
  calendarConsistent items = true ->
  In (k, b) (groupByDay items) ->
  List.length (filter (fun y => Bucket.dt y <? Bucket.dt b) (sortedBuckets items))
  = earlierDays items k.
Proof.
  intros Hcal Hin. unfold earlierDays.
  rewrite (filter_length_perm _ _ _ (sortedBuckets_perm items)).
  rewrite <- (filter_length_perm _ _ _ (groupByDay_keys_perm items)).
  symmetry. unfold Object_values. apply filter_length_fst_snd.
  intros k' b' Hin'. apply dayBefore_buckets; assumption.
Qed.

Lemma entryDay_toForecastItem (b : Bucket.t) :
  entryDay (toForecastItem b) = bucketDay b.
Proof. reflexivity. Qed.

Lemma compactForecast_days (items : ForecastAPIList) :
  map entryDay (compactForecast items)
  = map bucketDay (firstn 5 (sortedBuckets items)).
Proof. rewrite compactForecast_unfold, map_map. reflexivity. Qed.

Lemma sortedBuckets_days_NoDup (items : ForecastAPIList) :
  NoDup (map bucketDay (sortedBuckets items)).
Proof.
  eapply Permutation_NoDup;
    [ apply Permutation_map, Permutation_sym, sortedBuckets_perm | ].
  rewrite <- groupByDay_keys_bucketDay. apply groupByDay_NoDup.
Qed.

Lemma NoDup_map_firstn {A B : Type} (f : A -> B) (n : nat) (l : list A) :
  NoDup (map f l) -> NoDup (map f (firstn n l)).
Proof.
  revert n. induction l as [ | x l IH]; intros [ | n] H; cbn; try constructor.
  - inversion H as [ | ? ? Hnotin _]; subst. intro Hin. apply Hnotin.
    apply in_map_iff in Hin. destruct Hin as (y & E & Hy).
    apply in_map_iff. exists y. split; [ exact E | exact (firstn_incl n l y Hy) ].
  - apply IH. inversion H; assumption.
Qed.

Lemma sortedBuckets_In (items : ForecastAPIList) (b : Bucket.t) :
  In b (sortedBuckets items) <-> In (bucketDay b, b) (groupByDay items).
Proof.
  split.
  - intro Hb.
    apply (Permutation_in _ (sortedBuckets_perm items)) in Hb.
    unfold Object_values in Hb. apply in_map_iff in Hb.
    destruct Hb as ([k b'] & E & Hin). cbn in E. subst b'.
    destruct (groupByDay_bucket items k b Hin) as (_ & _ & _ & _ & Ek).
    rewrite Ek. exact Hin.
  - intro Hin.
    apply (Permutation_in _ (Permutation_sym (sortedBuckets_perm items))).
    unfold Object_values. apply in_map_iff. exists (bucketDay b, b). auto.
Qed.

(** C1: the output has one entry per day, for [min 5 d] of the [d] days
    of the input; on a consistent calendar these are the (at most five)
    earliest days: a day of the input has an entry exactly when fewer than
    five days of the input lie before it.  The entry of a day carries the
    minimum of [temp_min] and the maximum of [temp_max] over the samples
    of that day, and the condition, description and timestamp of the
    day's first sample in input order. *)
Theorem compactForecast_per_day (items : ForecastAPIList) :
  NoDup (map entryDay (compactForecast items)) /\
  List.length (compactForecast items)
  = Nat.min 5 (List.length (distinctDays items)) /\
  (calendarConsistent items = true ->
   forall k : DateString,
     In k (map entryDay (compactForecast items)) <->
     In k (distinctDays items) /\ (earlierDays items k < 5)%nat) /\
  (forall o : ForecastItem.t,
      In o (compactForecast items) ->
      exists first rest,
        samplesOf (entryDay o) items = first :: rest /\
        isMinimumOf (ForecastItem.temp_min o) (map sampleMin (first :: rest)) /\
        isMaximumOf (ForecastItem.temp_max o) (map sampleMax (first :: rest)) /\
        ForecastItem.main o = conditionMainOf first /\
        ForecastItem.desc o = conditionDescriptionOf first /\
        ForecastItem.dt o = ForecastAPIItem.dt first).
Proof.
  split; [ | split; [ | split ] ].
  - rewrite compactForecast_days.
    apply NoDup_map_firstn, sortedBuckets_days_NoDup.
  - rewrite compactForecast_unfold, length_map, length_firstn.
    f_equal.
    rewrite (Permutation_length (sortedBuckets_perm items)).
    unfold Object_values. rewrite length_map.
    rewrite <- (Permutation_length (groupByDay_keys_perm items)).
    symmetry. apply length_map.
  - intros Hcal k. rewrite compactForecast_days, in_map_iff. split.
    + intros (b & <- & Hb).
      pose proof (firstn_incl _ _ _ Hb) as Hsorted.
      pose proof (proj1 (sortedBuckets_In items b) Hsorted) as Hin.
      split.
      * apply (Permutation_in _ (groupByDay_keys_perm items)).
        apply (in_map fst) in Hin. exact Hin.
      * rewrite <- (earlierDays_buckets items _ b Hcal Hin).
        apply (firstn_strict_count Bucket.dt);
          [ apply sortedBuckets_strict | exact Hsorted | exact Hb ].
    + intros [Hk Hcount].
      apply (Permutation_in _ (Permutation_sym (groupByDay_keys_perm items))) in Hk.
      apply in_map_iff in Hk. destruct Hk as ([k0 b] & E & Hin). cbn in E. subst k0.
      destruct (groupByDay_bucket items k b Hin) as (_ & _ & _ & _ & Ek).
      exists b. split; [ exact Ek | ].
      rewrite <- Ek in Hin.
      apply (firstn_strict_count Bucket.dt);
        [ apply sortedBuckets_strict | apply sortedBuckets_In, Hin | ].
      rewrite (earlierDays_buckets items _ b Hcal Hin), Ek. exact Hcount.
  - intros o Ho.
    destruct (compactForecast_entry items o Ho) as (b & -> & _ & Hb).
    rewrite entryDay_toForecastItem.
    destruct (groupByDay_bucket items _ b Hb) as (first & rest & Hs & Hsum & _).
    exists first, rest. split; [ exact Hs | ].
    cbn in Hsum. injection Hsum as <-. cbn.
    split; [ apply fold_min_isMinimum | ].
    split; [ apply fold_max_isMaximum | ].
    auto.
Qed.

End PerDayFacts.

(** ** The search box *)

Lemma trimStart_blank (q : JsString) :
  forallb isWhiteSpace q = true -> trimStart q = [].
Proof.
  induction q as [ | c q IH]; cbn [forallb trimStart]; [ reflexivity | ].
  intro H. apply andb_true_iff in H. destruct H as [Hc Hq].
  rewrite Hc. apply IH, Hq.
Qed.

Lemma trim_blank (q : JsString) :
  forallb isWhiteSpace q = true -> trim q = [].
Proof.
  intro H. unfold trim, trimEnd. rewrite (trimStart_blank q H). reflexivity.
Qed.

Section HandlerFacts.

Context `{runtime : DateRuntime} (env : Env).

(** C10: on a query that is empty or all white space, [searchByCity]
    returns at once: it makes no call and leaves every state cell as it
    was. *)
Theorem searchByCity_blank_query (s : State) :
  forallb isWhiteSpace (query s) = true ->
  searchByCity env s = (Returned tt, s, []).
Proof.
  intro H. unfold searchByCity, bind, get.
  rewrite (trim_blank _ H). reflexivity.
Qed.

End HandlerFacts.

(** ** Handlers and the unit mode *)

Section Compositional.

Context {A B : Type}.

Lemma callsAll_ret (P : Call -> Prop) (a : A) : callsAll P (ret a).
Proof. intro s. constructor. Qed.

Lemma callsAll_throw (P : Call -> Prop) (e : string) : callsAll P (@throw A e).
Proof. intro s. constructor. Qed.

Lemma callsAll_settle (P : Call -> Prop) (o : Outcome A) : callsAll P (settle o).
Proof. destruct o; intro s; constructor. Qed.

Lemma callsAll_bind (P : Call -> Prop) (m : Handler A) (k : A -> Handler B) :
  callsAll P m -> (forall a, callsAll P (k a)) -> callsAll P (bind m k).
Proof.
  intros Hm Hk s. unfold bind. specialize (Hm s).
  destruct (m s) as [[[a | e] s1] c1]; cbn in *; [ | exact Hm ].
  specialize (Hk a s1). destruct (k a s1) as [[r s2] c2]; cbn in *.
  apply Forall_app. split; assumption.
Qed.

Lemma callsAll_tryCatch (P : Call -> Prop) (m : Handler A) (h : string -> Handler A) :
  callsAll P m -> (forall e, callsAll P (h e)) -> callsAll P (tryCatch m h).
Proof.
  intros Hm Hh s. unfold tryCatch. specialize (Hm s).
  destruct (m s) as [[[a | e] s1] c1]; cbn in *; [ exact Hm | ].
  specialize (Hh e s1). destruct (h e s1) as [[r s2] c2]; cbn in *.
  apply Forall_app. split; assumption.
Qed.

Lemma callsAll_tryFinally (P : Call -> Prop) (m : Handler A) (f : Handler unit) :
  callsAll P m -> callsAll P f -> callsAll P (tryFinally m f).
Proof.
  intros Hm Hf s. unfold tryFinally. specialize (Hm s).
  destruct (m s) as [[r s1] c1]; cbn in *.
  specialize (Hf s1). destruct (f s1) as [[[[] | e] s2] c2]; cbn in *;
    apply Forall_app; split; assumption.
Qed.

Lemma oblivious_ret (a : A) : unitsOblivious (ret a).
Proof. intros u s. reflexivity. Qed.

Lemma oblivious_throw (e : string) : unitsOblivious (@throw A e).
Proof. intros u s. reflexivity. Qed.

Lemma oblivious_settle (o : Outcome A) : unitsOblivious (settle o).
Proof. destruct o; intros u s; reflexivity. Qed.

Lemma oblivious_bind (m : Handler A) (k : A -> Handler B) :
  unitsOblivious m -> (forall a, unitsOblivious (k a)) ->
  unitsOblivious (bind m k).
Proof.
  intros Hm Hk u s. unfold bind. rewrite Hm.
  destruct (m s) as [[[a | e] s1] c1]; cbn; [ | reflexivity ].
  rewrite Hk. destruct (k a s1) as [[r s2] c2]; reflexivity.
Qed.

Lemma oblivious_tryCatch (m : Handler A) (h : string -> Handler A) :
  unitsOblivious m -> (forall e, unitsOblivious (h e)) ->
  unitsOblivious (tryCatch m h).
Proof.
  intros Hm Hh u s. unfold tryCatch. rewrite Hm.
  destruct (m s) as [[[a | e] s1] c1]; cbn; [ reflexivity | ].
  rewrite Hh. destruct (h e s1) as [[r s2] c2]; reflexivity.
Qed.

Lemma oblivious_tryFinally (m : Handler A) (f : Handler unit) :
  unitsOblivious m -> unitsOblivious f -> unitsOblivious (tryFinally m f).
Proof.
  intros Hm Hf u s. unfold tryFinally. rewrite Hm.
  destruct (m s) as [[r s1] c1]; cbn.
  rewrite Hf. destruct (f s1) as [[[[] | e] s2] c2]; reflexivity.
Qed.

(** Reading the state is harmless when what follows does not look at
    the unit mode read. *)
Lemma oblivious_get (k : State -> Handler A) :
  (forall u s, k (withUnits u s) = k s) ->
  (forall s, unitsOblivious (k s)) ->
  unitsOblivious (bind get k).
Proof.
  intros Hread Hk u s. unfold bind, get. cbn.
  rewrite Hread, Hk. destruct (k s s) as [[r s2] c2]; reflexivity.
Qed.

Lemma callsAll_get (P : Call -> Prop) (k : State -> Handler A) :
  (forall s, callsAll P (k s)) -> callsAll P (bind get k).
Proof.
  intros Hk s. unfold bind, get. cbn.
  specialize (Hk s s). destruct (k s s) as [[r s2] c2]; exact Hk.
Qed.

End Compositional.

Lemma callsAll_modify (P : Call -> Prop) (f : State -> State) :
  callsAll P (modify f).
Proof. intro s. constructor. Qed.

Lemma callsAll_call (P : Call -> Prop) (c : Call) :
  P c -> callsAll P (call c).
Proof. intros H s. repeat constructor. exact H. Qed.

Lemma oblivious_call (c : Call) : unitsOblivious (call c).
Proof. intros u s. reflexivity. Qed.

(** A write to a cell other than [units]. *)
Lemma oblivious_modify (f : State -> State) :
  (forall u s, f (withUnits u s) = withUnits u (f s)) ->
  unitsOblivious (modify f).
Proof. intros H u s. unfold modify. cbn. rewrite H. reflexivity. Qed.

Ltac oblivious_step :=
  lazymatch goal with
  | |- unitsOblivious (bind get _) =>
      apply oblivious_get; [ intros; reflexivity | intro ]
  | |- unitsOblivious (bind _ _) => apply oblivious_bind; [ | intro ]
  | |- unitsOblivious (tryCatch _ _) => apply oblivious_tryCatch; [ | intro ]
  | |- unitsOblivious (tryFinally _ _) => apply oblivious_tryFinally
  | |- unitsOblivious (if ?b then _ else _) => destruct b
  | |- unitsOblivious (match ?x with _ => _ end) => destruct x
  | |- unitsOblivious _ =>
      first [ apply oblivious_ret | apply oblivious_throw
            | apply oblivious_settle | apply oblivious_call
            | apply oblivious_modify; reflexivity ]
  end.

Ltac metric_step :=
  lazymatch goal with
  | |- callsAll _ (bind get _) => apply callsAll_get; intro
  | |- callsAll _ (bind _ _) => apply callsAll_bind; [ | intro ]
  | |- callsAll _ (tryCatch _ _) => apply callsAll_tryCatch; [ | intro ]
  | |- callsAll _ (tryFinally _ _) => apply callsAll_tryFinally
  | |- callsAll _ (if ?b then _ else _) => destruct b
  | |- callsAll _ (match ?x with _ => _ end) => destruct x
  | |- callsAll _ _ =>
      first [ apply callsAll_ret | apply callsAll_throw
            | apply callsAll_settle | apply callsAll_modify
            | apply callsAll_call; exact I
            | apply callsAll_call; reflexivity ]
  end.

Section UnitsFacts.

Context `{runtime : DateRuntime} (env : Env).

Lemma fetchAll_oblivious (c : Coords) : unitsOblivious (fetchAll env c).
Proof. unfold fetchAll. cbv zeta. repeat oblivious_step. Qed.

Lemma initByGeolocation_oblivious : unitsOblivious (initByGeolocation env).
Proof.
  unfold initByGeolocation. cbv zeta.
  repeat first [ apply fetchAll_oblivious | oblivious_step ].
Qed.

Lemma searchByCity_oblivious : unitsOblivious (searchByCity env).
Proof. unfold searchByCity. cbv zeta. repeat oblivious_step. Qed.

Lemma refreshData_oblivious : unitsOblivious (refreshData env).
Proof.
  unfold refreshData.
  repeat first [ apply fetchAll_oblivious | apply searchByCity_oblivious
               | oblivious_step ].
Qed.

Lemma onRefresh_oblivious : unitsOblivious (onRefresh env).
Proof.
  unfold onRefresh.
  repeat first [ apply refreshData_oblivious | oblivious_step ].
Qed.

Lemma fetchAll_metric (c : Coords) : callsAll asksMetric (fetchAll env c).
Proof. unfold fetchAll. cbv zeta. repeat metric_step. Qed.

Lemma initByGeolocation_metric : callsAll asksMetric (initByGeolocation env).
Proof.
  unfold initByGeolocation. cbv zeta.
  repeat first [ apply fetchAll_metric | metric_step ].
Qed.

Lemma searchByCity_metric : callsAll asksMetric (searchByCity env).
Proof. unfold searchByCity. cbv zeta. repeat metric_step. Qed.

Lemma refreshData_metric : callsAll asksMetric (refreshData env).
Proof.
  unfold refreshData.
  repeat first [ apply fetchAll_metric | apply searchByCity_metric
               | metric_step ].
Qed.

Lemma onRefresh_metric : callsAll asksMetric (onRefresh env).
Proof.
  unfold onRefresh.
  repeat first [ apply refreshData_metric | metric_step ].
Qed.

Lemma toggleUnits_metric : callsAll asksMetric toggleUnits.
Proof. unfold toggleUnits. repeat metric_step. Qed.

(** C9: unit conversion is display-only.  Every [fetch] of every handler
    asks for metric units, whatever the unit mode.  The handlers that
    fetch are oblivious of the unit mode: from a state with another unit
    mode they make the same calls and store the same values.  Toggling
    the units makes no call and writes the [units] cell only; the card
    rendered afterwards shows [displayTemp] and [displaySpeed], in the
    new mode, of the very values that were stored before. *)
Theorem units_display_only :
  (forall (h : HandlerName) (s : State) (url : Url),
      In (Fetch url) (snd (handlerOf env h s)) ->
      unitsParam url = Some (Literal "metric")) /\
  (forall (h : HandlerName) (u : string) (s : State),
      h <> ToggleUnits ->
      handlerOf env h (withUnits u s)
      = (fst (fst (handlerOf env h s)),
         withUnits u (snd (fst (handlerOf env h s))),
         snd (handlerOf env h s))) /\
  (forall s : State,
      toggleUnits s = (Returned tt, withUnits (toggled (units s)) s, [])) /\
  (forall (s : State) (w : WeatherData.t),
      current s = Some w ->
      let s' := withUnits (toggled (units s)) s in
      current s' = Some w /\
      forecast s' = forecast s /\
      hourlyForecast s' = hourlyForecast s /\
      temperature (renderCard s' w)
      = displayTemp (toggled (units s)) (WeatherData.temp (WeatherData.main w)) /\
      windText (renderCard s' w)
      = displaySpeed (toggled (units s)) (WeatherData.speed (WeatherData.wind w))).
Proof.
  split; [ | split; [ | split ] ].
  - intros h s url Hin.
    assert (Hall : callsAll asksMetric (handlerOf env h)).
    { destruct h; cbn [handlerOf].
      - apply initByGeolocation_metric.
      - apply searchByCity_metric.
      - apply onRefresh_metric.
      - apply toggleUnits_metric. }
    specialize (Hall s). rewrite Forall_forall in Hall.
    exact (Hall _ Hin).
  - intros h u s Hh. destruct h; cbn [handlerOf]; [ | | | congruence ].
    + apply initByGeolocation_oblivious.
    + apply searchByCity_oblivious.
    + apply onRefresh_oblivious.
  - intro s. reflexivity.
  - intros s w Hw s'. repeat split. exact Hw.
Qed.

End UnitsFacts.

(** ** Failure paths *)

Ltac unfold_handler :=
  unfold tryFinally, tryCatch, bind, ret, throw, get, call, modify, settle,
    setLoading, setRefreshing, setError, setCoords, setCityLabel, setCurrent,
    setForecast, setHourlyForecast.

Section FailureFacts.

Context `{runtime : DateRuntime} (env : Env).

Lemma fetch_urls_differ (c : Coords) :
  NoDup [ Fetch (urlByCoords env Current (lat c) (lon c));
          Fetch (urlByCoords env Forecast (lat c) (lon c)) ].
Proof.
  constructor; [ | constructor; [ intros [] | constructor ] ].
  intros [E | []]. discriminate E.
Qed.

(** A failing [fetchAll] writes its message and nothing else. *)
Lemma fetchAll_failure (c : Coords) (s : State) :
  FetchAllFailure env c ->
  exists message calls,
    fetchAll env c s = (Returned tt, withError (Some message) s, calls) /\
    (message = msgMissingKey \/ message = msgFetchFailed) /\
    (calls = [] \/
     calls = [ Fetch (urlByCoords env Current (lat c) (lon c));
               Fetch (urlByCoords env Forecast (lat c) (lon c)) ]).
Proof.
  intro Hfail. unfold fetchAll.
  destruct Hfail as [Hkey | Hkey Hf | Hkey Hf]; rewrite Hkey; cbn [negb].
  - exists msgMissingKey, []. auto.
  - exists msgFetchFailed. eexists. split; [ | split; [ right; reflexivity | right; reflexivity ] ].
    unfold_handler. cbv zeta.
    destruct (fetch env (urlByCoords env Current (lat c) (lon c)))
      as [[[cData | r] | j] | r]; inversion Hf; subst;
      destruct (fetch env (urlByCoords env Forecast (lat c) (lon c)))
        as [[[fData | r'] | [m | r']] | r'];
      try destruct j; reflexivity.
  - exists msgFetchFailed. eexists. split; [ | split; [ right; reflexivity | right; reflexivity ] ].
    unfold_handler. cbv zeta.
    destruct (fetch env (urlByCoords env Forecast (lat c) (lon c)))
      as [[[fData | r] | j] | r]; inversion Hf; subst;
      destruct (fetch env (urlByCoords env Current (lat c) (lon c)))
        as [[[cData | r'] | [m | r']] | r'];
      try destruct j; reflexivity.
Qed.

Lemma render_error (s : State) (message : string) :
  loading s = false ->
  error s = Some message ->
  In message userMessages ->
  render s = Returned (errorScreen message).
Proof.
  intros Hl He Hm. unfold render. rewrite Hl, He.
  assert (Hne : String.eqb message "" = false).
  { cbn in Hm. repeat destruct Hm as [<- | Hm]; try reflexivity. destruct Hm. }
  rewrite Hne. reflexivity.
Qed.

Lemma truthy_trim (q : JsString) :
  truthy (trim q) = true -> truthy q = true.
Proof. destruct q; [ discriminate | reflexivity ]. Qed.

Lemma initByGeolocation_failure (s : State) :
  GeolocationFailure env ->
  collapsesToError
    [ msgPermissionDenied; msgNoLocation; msgMissingKey; msgFetchFailed ]
    (initByGeolocation env s).
Proof.
  intro Hfail. unfold collapsesToError, initByGeolocation.
  destruct Hfail as [r Hp | status Hp Hs | r Hp Hl | location Hp Hl Hf].
  - unfold_handler. rewrite Hp. cbn.
    split; [ reflexivity | ]. split.
    + exists msgNoLocation. split; [ reflexivity | ].
      split; [ cbn; tauto | reflexivity ].
    + repeat constructor. intros [].
  - unfold_handler. rewrite Hp. cbn.
    apply String.eqb_neq in Hs. rewrite Hs. cbn.
    split; [ reflexivity | ]. split.
    + exists msgPermissionDenied. split; [ reflexivity | ].
      split; [ cbn; tauto | reflexivity ].
    + repeat constructor. intros [].
  - unfold_handler. rewrite Hp, Hl. cbn.
    split; [ reflexivity | ]. split.
    + exists msgNoLocation. split; [ reflexivity | ].
      split; [ cbn; tauto | reflexivity ].
    + repeat constructor; cbn; intuition discriminate.
  - unfold_handler. rewrite Hp, Hl. cbn -[fetchAll].
    match goal with
    | |- context [fetchAll env ?c ?s0] =>
        destruct (fetchAll_failure c s0 Hf) as (m & calls & E & Hm & Hcalls);
        rewrite E
    end.
    cbn -[render].
    split; [ reflexivity | ]. split.
    + exists m. split; [ reflexivity | ].
      split; [ destruct Hm as [-> | ->]; cbn; tauto | ].
      apply render_error; [ reflexivity | reflexivity | ].
      destruct Hm as [-> | ->]; cbn; tauto.
    + destruct Hcalls as [-> | ->]; cbn.
      * repeat constructor; cbn; intuition discriminate.
      * repeat constructor; cbn; intuition discriminate.
Qed.

Lemma searchByCity_failure (s : State) :
  truthy (trim (query s)) = true ->
  CitySearchFailure env (query s) ->
  collapsesToError [msgCityNotFound] (searchByCity env s).
Proof.
  intros Hq Hfail. unfold collapsesToError, searchByCity.
  unfold_handler. rewrite Hq. cbv zeta. cbn [negb].
  destruct Hfail as [Hf | cData Hc Hf].
  - destruct (fetch env (urlByCity env (query s)))
      as [[[cData | r] | [j | r]] | r]; inversion Hf; subst; cbn;
      (split; [ reflexivity | ]; split;
       [ exists msgCityNotFound; split; [ reflexivity | ];
         split; [ cbn; tauto | reflexivity ]
       | repeat constructor; cbn; intuition discriminate ]).
  - rewrite Hc. cbn.
    destruct (fetch env (urlByCoords env Forecast
                           (lat (WeatherData.coord cData))
                           (lon (WeatherData.coord cData))))
      as [[[fData | r] | [j | r]] | r]; inversion Hf; subst; cbn;
      (split; [ reflexivity | ]; split;
       [ exists msgCityNotFound; split; [ reflexivity | ];
         split; [ cbn; tauto | reflexivity ]
       | repeat constructor; cbn; intuition discriminate ]).
Qed.

Lemma onRefresh_fetchAll_failure (s : State) (c : Coords) :
  coords s = Some c ->
  FetchAllFailure env c ->
  collapsesToError [msgMissingKey; msgFetchFailed] (onRefresh env s).
Proof.
  intros Hc Hfail. unfold collapsesToError, onRefresh, refreshData.
  unfold_handler. cbn -[fetchAll render]. rewrite Hc. cbn -[fetchAll render].
  match goal with
  | |- context [fetchAll env c ?s0] =>
      destruct (fetchAll_failure c s0 Hfail) as (m & calls & E & Hm & Hcalls);
      rewrite E
  end.
  cbn -[render].
  split; [ reflexivity | ]. split.
  - exists m. split; [ reflexivity | ].
    split; [ destruct Hm as [-> | ->]; cbn; tauto | ].
    apply render_error; [ reflexivity | reflexivity | ].
    destruct Hm as [-> | ->]; cbn; tauto.
  - rewrite !app_nil_r. destruct Hcalls as [-> | ->].
    + constructor.
    + apply fetch_urls_differ.
Qed.

Lemma onRefresh_search_failure (s : State) :
  coords s = None ->
  truthy (trim (query s)) = true ->
  CitySearchFailure env (query s) ->
  collapsesToError [msgCityNotFound] (onRefresh env s).
Proof.
  intros Hc Hq Hfail.
  pose proof (searchByCity_failure
                (withError None (withLoading true (withRefreshing true s)))
                Hq Hfail) as (Hr & (m & He & Hin & _) & Hnd).
  unfold collapsesToError, onRefresh, refreshData.
  unfold_handler. cbn -[searchByCity render]. rewrite Hc, (truthy_trim _ Hq).
  cbn -[searchByCity render].
  destruct (searchByCity env
              (withError None (withLoading true (withRefreshing true s))))
    as [[r s'] calls].
  cbn in Hr, He, Hnd. subst r. cbn -[render].
  split; [ reflexivity | ]. split.
  - exists m. split; [ exact He | ]. split; [ exact Hin | ].
    apply render_error; [ reflexivity | exact He | ].
    destruct Hin as [<- | []]. cbn. tauto.
  - rewrite !app_nil_r. exact Hnd.
Qed.

(** C8: every failure path ends in the error screen.  Whatever fails in
    the geolocation flow (the permission request, a denied permission,
    the location, the missing credential, the network, a non-success
    response, an unreadable body), in a city search or in a refresh, the
    handler completes, the single [error] cell holds the fixed message of
    the step that failed, the screen rendered next is the error screen
    with that message and its retry button, and the handler made no call
    twice. *)
Theorem failures_collapse (s : State) :
  (GeolocationFailure env ->
   collapsesToError
     [ msgPermissionDenied; msgNoLocation; msgMissingKey; msgFetchFailed ]
     (initByGeolocation env s)) /\
  (truthy (trim (query s)) = true ->
   CitySearchFailure env (query s) ->
   collapsesToError [msgCityNotFound] (searchByCity env s)) /\
  (forall c : Coords,
      coords s = Some c ->
      FetchAllFailure env c ->
      collapsesToError [msgMissingKey; msgFetchFailed] (onRefresh env s)) /\
  (coords s = None ->
   truthy (trim (query s)) = true ->
   CitySearchFailure env (query s) ->
   collapsesToError [msgCityNotFound] (onRefresh env s)).
Proof.
  split; [ apply initByGeolocation_failure | ].
  split; [ apply searchByCity_failure | ].
  split; [ apply onRefresh_fetchAll_failure | apply onRefresh_search_failure ].
Qed.

End FailureFacts.

(** ** Handlers complete *)

Section Completes.

Context {A B : Type}.

Lemma completes_bind (m : Handler A) (k : A -> Handler B) :
  completes m -> (forall a, completes (k a)) -> completes (bind m k).
Proof.
  intros Hm Hk s. unfold bind. destruct (Hm s) as [a Ha].
  destruct (m s) as [[r s1] c1]. cbn in Ha. subst r.
  destruct (Hk a s1) as [b Hb].
  destruct (k a s1) as [[r s2] c2]. cbn in *. exists b. exact Hb.
Qed.

Lemma completes_tryCatch (m : Handler A) (h : string -> Handler A) :
  (forall e, completes (h e)) -> completes (tryCatch m h).
Proof.
  intros Hh s. unfold tryCatch.
  destruct (m s) as [[[a | e] s1] c1]; [ exists a; reflexivity | ].
  destruct (Hh e s1) as [b Hb].
  destruct (h e s1) as [[r s2] c2]. cbn in *. exists b. exact Hb.
Qed.

Lemma completes_tryFinally (m : Handler A) (f : Handler unit) :
  completes m -> completes f -> completes (tryFinally m f).
Proof.
  intros Hm Hf s. unfold tryFinally. destruct (Hm s) as [a Ha].
  destruct (m s) as [[r s1] c1]. cbn in Ha. subst r.
  destruct (Hf s1) as [[] Hu].
  destruct (f s1) as [[r s2] c2]. cbn in Hu. subst r.
  exists a. reflexivity.
Qed.

Lemma completes_ret (a : A) : completes (ret a).
Proof. intro s. exists a. reflexivity. Qed.

End Completes.

Lemma completes_modify (f : State -> State) : completes (modify f).
Proof. intro s. exists tt. reflexivity. Qed.

Lemma completes_get : completes get.
Proof. intro s. exists s. reflexivity. Qed.

Ltac completes_step :=
  lazymatch goal with
  | |- completes (bind _ _) => apply completes_bind; [ | intro ]
  | |- completes (tryCatch _ _) => apply completes_tryCatch; intro
  | |- completes (tryFinally _ _) => apply completes_tryFinally
  | |- completes (if ?b then _ else _) => destruct b
  | |- completes (match ?x with _ => _ end) => destruct x
  | |- completes _ =>
      first [ apply completes_ret | apply completes_modify | apply completes_get ]
  end.

Section CompletesFacts.

Context `{runtime : DateRuntime} (env : Env).

Lemma fetchAll_completes (c : Coords) : completes (fetchAll env c).
Proof. unfold fetchAll. repeat completes_step. Qed.

Lemma initByGeolocation_completes : completes (initByGeolocation env).
Proof. unfold initByGeolocation. repeat completes_step. Qed.

Lemma searchByCity_completes : completes (searchByCity env).
Proof. unfold searchByCity. repeat completes_step. Qed.

Lemma refreshData_completes : completes (refreshData env).
Proof.
  unfold refreshData.
  repeat first [ apply fetchAll_completes | apply searchByCity_completes
               | completes_step ].
Qed.

(** No handler lets an exception escape: whatever the environment
    answers, each of them completes normally. *)
Theorem handlers_complete (h : HandlerName) (s : State) :
  fst (fst (handlerOf env h s)) = Returned tt.
Proof.
  assert (H : completes (handlerOf env h)).
  { destruct h; cbn [handlerOf].
    - apply initByGeolocation_completes.
    - apply searchByCity_completes.
    - unfold onRefresh.
      repeat first [ apply refreshData_completes | completes_step ].
    - unfold toggleUnits. repeat completes_step. }
  destruct (H s) as [[] E]. exact E.
Qed.

End CompletesFacts.

(** ** The properties on the sample data *)

Example toDateString_UTC :
  UTC.toDateString 1700000000000 = "Tue Nov 14 2023"%string /\
  UTC.toDateString 0 = "Thu Jan 01 1970"%string /\
  UTC.toDateString (-1) = "Wed Dec 31 1969"%string /\
  UTC.toDateString 1709251199000 = "Thu Feb 29 2024"%string /\
  UTC.getHours 1700000000000 = Some 22.
Proof. repeat split; reflexivity. Qed.

Example displayTemp_values :
  displayTemp "imperial" (5 # 2) = 37 /\
  displayTemp "metric" (5 # 2) = 3 /\
  displayTemp "metric" (- (5 # 2)) = -2 /\
  displayTemp "imperial" (-40) = -40 /\
  displaySpeed "imperial" 5 = "11.2"%string /\
  displaySpeed "metric" 5 = "5.0"%string.
Proof. repeat split; reflexivity. Qed.

Example getWeatherIcon_values :
  getWeatherIcon (Some "Rain"%string) = Mapped "rainy"%string /\
  getWeatherIcon (Some "Hail"%string) = Mapped "partly-sunny"%string /\
  getWeatherIcon None = Mapped "partly-sunny"%string /\
  getWeatherImage (Some "Smoke"%string) = Mapped defaultImage /\
  getWeatherIcon (Some "toString"%string) = PrototypeMember "toString".
Proof. repeat split; reflexivity. Qed.

(** The two days of the sample, each summarised; the first day keeps the
    timestamp and condition of its first sample in input order (21:00),
    not of its earliest one. *)
Example compactForecast_sample :
  compactForecast sampleForecast
  = [ {| ForecastItem.dt := 1699995600;
         ForecastItem.main := "Clouds";
         ForecastItem.desc := "nubes dispersas";
         ForecastItem.temp_min := 21 # 2;
         ForecastItem.temp_max := 27 # 2 |};
      {| ForecastItem.dt := 1700006400;
         ForecastItem.main := "Rain";
         ForecastItem.desc := "lluvia ligera";
         ForecastItem.temp_min := 15 # 2;
         ForecastItem.temp_max := 19 # 2 |} ].
Proof. reflexivity. Qed.

(** Of six days, the five earliest are kept, in ascending order. *)
Example compactForecast_sixDays :
  calendarConsistent sixDays = true /\
  map entryDay (compactForecast sixDays)
  = [ "Tue Nov 14 2023"; "Wed Nov 15 2023"; "Thu Nov 16 2023";
      "Fri Nov 17 2023"; "Sat Nov 18 2023" ]%string /\
  map (earlierDays sixDays) (distinctDays sixDays) = [3; 0; 5; 1; 4; 2]%nat.
Proof. repeat split; vm_compute; reflexivity. Qed.

Example processHourlyForecast_sample :
  processHourlyForecast sampleForecast
  = Some {| labels := [ "21:00"; "0:00"; "3:00"; "18:00" ]%string;
            datasets := [ {| data := [12; 10; 9; 14] |} ];
            icons := [ Mapped "cloudy"; Mapped "rainy";
                       Mapped "partly-sunny"; Mapped "rainy" ]%string |} /\
  processHourlyForecast [sample 1699995600 (21 # 2) 12 [clouds]] = None /\
  processHourlyForecast [] = None.
Proof. repeat split; reflexivity. Qed.

Example initByGeolocation_denied :
  initByGeolocation deniedEnv initialState
  = (Returned tt,
     withLoading false (withError (Some msgPermissionDenied) initialState),
     [RequestForegroundPermissions]).
Proof. reflexivity. Qed.

Example searchByCity_online :
  let '(r, s, calls) := searchByCity onlineEnv (idleState cityQuery) in
  r = Returned tt /\
  error s = None /\
  cityLabel s = "La Paz"%string /\
  forecast s = compactForecast sampleForecast /\
  List.length calls = 3%nat.
Proof. vm_compute. repeat split; reflexivity. Qed.

(** ** Witnesses *)

Lemma compactForecast_per_day_witness :
  calendarConsistent sampleForecast = true /\
  (forall k : string,
      In k (map entryDay (compactForecast sampleForecast)) <->
      In k (distinctDays sampleForecast)
      /\ (earlierDays sampleForecast k < 5)%nat).
Proof.
  assert (H : calendarConsistent sampleForecast = true) by (vm_compute; reflexivity).
  split; [ exact H | ].
  exact (proj1 (proj2 (proj2 (compactForecast_per_day sampleForecast))) H).
Defined.

Lemma processHourlyForecast_null_iff_witness :
  (2 <= List.length sampleForecast)%nat /\
  exists h : HourlyData, processHourlyForecast sampleForecast = Some h.
Proof.
  assert (H : (2 <= List.length sampleForecast)%nat) by (cbn; lia).
  split; [ exact H | ].
  exact (proj2 (processHourlyForecast_null_iff sampleForecast) H).
Defined.

Lemma processHourlyForecast_first_eight_witness :
  (2 <= List.length sampleForecast)%nat /\
  exists (h : HourlyData) (d : Dataset),
    processHourlyForecast sampleForecast = Some h /\
    datasets h = [d] /\
    List.length (labels h) = 4%nat /\
    List.length (data d) = 4%nat /\
    List.length (icons h) = 4%nat.
Proof.
  assert (H : (2 <= List.length sampleForecast)%nat) by (cbn; lia).
  split; [ exact H | ].
  destruct (processHourlyForecast_first_eight sampleForecast H)
    as (h & d & E & Hd & Hl & Hn & Hi & _).
  exists h, d. repeat split; assumption.
Defined.

Lemma compactForecast_min_le_max_witness :
  (forall item, In item sampleForecast -> (sampleMin item <= sampleMax item)%Q) /\
  (forall o, In o (compactForecast sampleForecast) ->
             (ForecastItem.temp_min o <= ForecastItem.temp_max o)%Q).
Proof.
  assert (H : forall item, In item sampleForecast ->
                           (sampleMin item <= sampleMax item)%Q).
  { intros item Hin. cbn in Hin.
    repeat destruct Hin as [<- | Hin]; unfold Qle; cbn; lia. }
  split; [ exact H | ].
  exact (compactForecast_min_le_max sampleForecast H).
Defined.

Lemma failures_collapse_witness :
  GeolocationFailure deniedEnv /\
  collapsesToError
    [ msgPermissionDenied; msgNoLocation; msgMissingKey; msgFetchFailed ]
    (initByGeolocation deniedEnv initialState).
Proof.
  assert (H : GeolocationFailure deniedEnv).
  { apply (PermissionDenied deniedEnv "denied"); [ reflexivity | discriminate ]. }
  split; [ exact H | ].
  exact (proj1 (failures_collapse deniedEnv initialState) H).
Defined.

Lemma units_display_only_witness :
  In (Fetch (urlByCoords offlineEnv Forecast (-(33 # 2)) (-(681 # 10))))
     (snd (handlerOf offlineEnv InitByGeolocation initialState)) /\
  unitsParam (urlByCoords offlineEnv Forecast (-(33 # 2)) (-(681 # 10)))
  = Some (Literal "metric").
Proof.
  assert (H : In (Fetch (urlByCoords offlineEnv Forecast (-(33 # 2)) (-(681 # 10))))
                 (snd (handlerOf offlineEnv InitByGeolocation initialState))).
  { cbn. right. right. right. left. reflexivity. }
  split; [ exact H | ].
  exact (proj1 (units_display_only offlineEnv) InitByGeolocation initialState _ H).
Defined.

Lemma searchByCity_blank_query_witness :
  forallb isWhiteSpace (query (idleState blankQuery)) = true /\
  searchByCity onlineEnv (idleState blankQuery)
  = (Returned tt, idleState blankQuery, []).
Proof.
  assert (H : forallb isWhiteSpace (query (idleState blankQuery)) = true)
    by reflexivity.
  split; [ exact H | ].
  exact (searchByCity_blank_query onlineEnv (idleState blankQuery) H).
Defined.

Lemma assets_fallback_witness :
  inheritedKey "Smoke" = false /\
  ownProperty imageMap "Smoke" = None /\
  getWeatherImage (Some "Smoke"%string) = Mapped defaultImage.
Proof.
  assert (H : inheritedKey (String_of_keyword (Some "Smoke"%string)) = false)
    by reflexivity.
  split; [ exact H | ].
  split; [ reflexivity | ].
  exact (proj2 (assets_fallback (Some "Smoke"%string) H) eq_refl).
Defined.

(** * Further properties *)

(** ** The handlers follow their decision tables *)

Section TableFacts.

Context `{runtime : DateRuntime} (env : Env).

Lemma fetchAll_run (c : Coords) (s : State) :
  fetchAll env c s = fetchAll_table env c s.
Proof.
  unfold fetchAll, fetchAll_table.
  destruct (canFetch env); cbn [negb]; [ | reflexivity ].
  unfold_handler. cbv zeta.
  destruct (fetch env (urlByCoords env Current (lat c) (lon c)))
    as [[[cData | r] | [m | r]] | r];
    destruct (fetch env (urlByCoords env Forecast (lat c) (lon c)))
      as [[[fData | r'] | [m' | r']] | r'];
    reflexivity.
Qed.

Lemma fetchAll_table_returns (c : Coords) (s : State) :
  fst (fst (fetchAll_table env c s)) = Returned tt.
Proof.
  unfold fetchAll_table. cbv zeta.
  destruct (canFetch env); cbn [negb]; [ | reflexivity ].
  destruct (fetch env (urlByCoords env Current (lat c) (lon c)))
    as [[[cData | r] | [m | r]] | r];
    destruct (fetch env (urlByCoords env Forecast (lat c) (lon c)))
      as [[[fData | r'] | [m' | r']] | r'];
    reflexivity.
Qed.

Lemma initByGeolocation_run (s : State) :
  initByGeolocation env s = initByGeolocation_table env s.
Proof.
  unfold initByGeolocation, initByGeolocation_table.
  unfold_handler. cbv zeta.
  destruct (requestForegroundPermissionsAsync env) as [status | r];
    [ | reflexivity ].
  cbn -[fetchAll fetchAll_table].
  destruct (String.eqb status "granted"); cbn -[fetchAll fetchAll_table];
    [ | reflexivity ].
  destruct (getCurrentPositionAsync env) as [location | r];
    cbn -[fetchAll fetchAll_table]; [ | reflexivity ].
  rewrite fetchAll_run.
  match goal with
  | |- context [fetchAll_table env ?c ?s0] =>
      pose proof (fetchAll_table_returns c s0) as Hr;
      destruct (fetchAll_table env c s0) as [[r s2] calls]
  end.
  cbn in Hr. subst r. cbn. rewrite !app_nil_r. reflexivity.
Qed.

Lemma searchByCity_run (s : State) :
  searchByCity env s = searchByCity_table env s.
Proof.
  unfold searchByCity, searchByCity_table.
  unfold_handler. cbv zeta.
  destruct (truthy (trim (query s))); cbn [negb]; [ | reflexivity ].
  destruct (fetch env (urlByCity env (query s)))
    as [[[cData | r] | [m | r]] | r]; try reflexivity.
  cbn -[compactForecast processHourlyForecast].
  destruct (fetch env (urlByCoords env Forecast
                         (lat (WeatherData.coord cData))
                         (lon (WeatherData.coord cData))))
    as [[[fData | r'] | [m' | r']] | r']; reflexivity.
Qed.

Lemma searchByCity_table_returns (s : State) :
  fst (fst (searchByCity_table env s)) = Returned tt.
Proof.
  unfold searchByCity_table. cbv zeta.
  destruct (truthy (trim (query s))); cbn [negb]; [ | reflexivity ].
  destruct (fetch env (urlByCity env (query s)))
    as [[[cData | r] | [m | r]] | r]; try reflexivity.
  destruct (fetch env (urlByCoords env Forecast
                         (lat (WeatherData.coord cData))
                         (lon (WeatherData.coord cData))))
    as [[[fData | r'] | [m' | r']] | r']; reflexivity.
Qed.

Lemma onRefresh_run (s : State) :
  onRefresh env s = onRefresh_table env s.
Proof.
  unfold onRefresh, refreshData, onRefresh_table.
  unfold_handler. cbv zeta.
  cbn -[fetchAll fetchAll_table searchByCity searchByCity_table].
  destruct (coords s) as [c | ];
    cbn -[fetchAll fetchAll_table searchByCity searchByCity_table].
  - rewrite fetchAll_run.
    match goal with
    | |- context [fetchAll_table env ?c ?s0] =>
        pose proof (fetchAll_table_returns c s0) as Hr;
        destruct (fetchAll_table env c s0) as [[r s2] calls]
    end.
    cbn in Hr. subst r. cbn. rewrite !app_nil_r. reflexivity.
  - destruct (truthy (query s));
      cbn -[fetchAll fetchAll_table searchByCity searchByCity_table];
      [ | reflexivity ].
    rewrite searchByCity_run.
    match goal with
    | |- context [searchByCity_table env ?s0] =>
        pose proof (searchByCity_table_returns s0) as Hr;
        destruct (searchByCity_table env s0) as [[r s2] calls]
    end.
    cbn in Hr. subst r. cbn. rewrite !app_nil_r. reflexivity.
Qed.

End TableFacts.

(** ** Successful loads *)

Section SuccessFacts.

Context `{runtime : DateRuntime} (env : Env).

(** A stored hourly series never makes the chart throw. *)
Lemma processHourlyForecast_dataset (items : ForecastAPIList) (h : HourlyData) :
  processHourlyForecast items = Some h ->
  exists d : Dataset, datasets h = [d].
Proof.
  unfold processHourlyForecast.
  destruct (List.length items =? 0)%nat; [ discriminate | ].
  destruct (List.length (firstn 8 items) <? 2)%nat; [ discriminate | ].
  intro E. injection E as <-. eexists. reflexivity.
Qed.

Lemma mainScreen_returns (s : State) :
  (forall h, hourlyForecast s = Some h -> exists d, datasets h = [d]) ->
  exists view : MainView, mainScreen s = Returned (MainScreen view).
Proof.
  intro H. unfold mainScreen.
  destruct (hourlyForecast s) as [h | ]; [ | eexists; reflexivity ].
  destruct (H h eq_refl) as [d Hd]. unfold renderChart. rewrite Hd.
  eexists. reflexivity.
Qed.

Lemma render_main (s : State) :
  loading s = false ->
  error s = None ->
  (forall h, hourlyForecast s = Some h -> exists d, datasets h = [d]) ->
  exists view : MainView, render s = Returned (MainScreen view).
Proof.
  intros Hl He Hh. unfold render. rewrite Hl, He.
  apply mainScreen_returns, Hh.
Qed.

(** When the permission is granted, the device is located, the key is
    configured and both endpoints answer, [initByGeolocation] makes its
    four calls in order, stores the location and what the two bodies
    give, clears the error, and the main screen is rendered next. *)
Theorem initByGeolocation_success
        (s : State) (location : LocationObject)
        (cData : WeatherData.t) (fData : ForecastData.t) :
  requestForegroundPermissionsAsync env = Resolved "granted"%string ->
  getCurrentPositionAsync env = Resolved location ->
  canFetch env = true ->
  fetch env (urlByCoords env Current (latitude location) (longitude location))
  = Resolved (Ok (Resolved cData)) ->
  fetch env (urlByCoords env Forecast (latitude location) (longitude location))
  = Resolved (Ok (Resolved fData)) ->
  callsOf (initByGeolocation env s)
  = [ RequestForegroundPermissions; GetCurrentPosition;
      Fetch (urlByCoords env Current (latitude location) (longitude location));
      Fetch (urlByCoords env Forecast (latitude location) (longitude location)) ] /\
  loading (stateOf (initByGeolocation env s)) = false /\
  error (stateOf (initByGeolocation env s)) = None /\
  coords (stateOf (initByGeolocation env s))
  = Some {| lat := latitude location; lon := longitude location |} /\
  current (stateOf (initByGeolocation env s)) = Some cData /\
  cityLabel (stateOf (initByGeolocation env s)) = WeatherData.name cData /\
  forecast (stateOf (initByGeolocation env s))
  = compactForecast (listOrEmpty fData) /\
  hourlyForecast (stateOf (initByGeolocation env s))
  = processHourlyForecast (listOrEmpty fData) /\
  exists view : MainView,
    render (stateOf (initByGeolocation env s)) = Returned (MainScreen view).
Proof.
  intros Hp Hl Hk Hc Hf.
  rewrite initByGeolocation_run. unfold initByGeolocation_table.
  rewrite Hp, Hl. cbn [String.eqb Ascii.eqb Bool.eqb negb]. cbv zeta.
  unfold fetchAll_table. cbv zeta. cbn [lat lon].
  rewrite Hk, Hc, Hf. cbn [negb fst snd callsOf stateOf].
  repeat (split; [ reflexivity | ]).
  apply render_main; [ reflexivity | reflexivity | ].
  cbn. intros h Hh. exact (processHourlyForecast_dataset _ _ Hh).
Qed.



(** A load that fails before anything is stored keeps the data on
    display: a failed refresh by coordinates and a failed city lookup
    leave the location, the city name, the current conditions, the
    forecast and the hourly series as they were; a failed geolocation
    leaves all of them but, once the device is located, the
    coordinates. *)
Theorem failed_load_keeps_data (s : State) :
  (forall c : Coords,
      coords s = Some c ->
      FetchAllFailure env c ->
      sameData s (stateOf (onRefresh env s))) /\
  (truthy (trim (query s)) = true ->
   FetchFailure (fetch env (urlByCity env (query s))) ->
   sameData s (stateOf (searchByCity env s))) /\
  (GeolocationFailure env ->
   cityLabel (stateOf (initByGeolocation env s)) = cityLabel s /\
   current (stateOf (initByGeolocation env s)) = current s /\
   forecast (stateOf (initByGeolocation env s)) = forecast s /\
   hourlyForecast (stateOf (initByGeolocation env s)) = hourlyForecast s).
Proof.
  split; [ | split ].
  - intros c Hc Hfail.
    rewrite onRefresh_run. unfold onRefresh_table. rewrite Hc. cbv zeta.
    rewrite <- fetchAll_run.
    match goal with
    | |- context [fetchAll env c ?s0] =>
        destruct (fetchAll_failure env c s0 Hfail) as (m & calls & E & _ & _);
        rewrite E
    end.
    unfold sameData. cbn. rewrite Hc. repeat split.
  - intros Hq Hf.
    rewrite searchByCity_run. unfold searchByCity_table.
    rewrite Hq. cbn [negb]. cbv zeta.
    destruct (fetch env (urlByCity env (query s)))
      as [[[cData | r] | [m | r]] | r]; inversion Hf; subst;
      unfold sameData; repeat split; reflexivity.
  - intro Hfail.
    rewrite initByGeolocation_run. unfold initByGeolocation_table. cbv zeta.
    destruct Hfail as [r Hp | status Hp Hs | r Hp Hl | location Hp Hl Hf].
    + rewrite Hp. repeat split; reflexivity.
    + rewrite Hp. apply String.eqb_neq in Hs. rewrite Hs.
      repeat split; reflexivity.
    + rewrite Hp, Hl. repeat split; reflexivity.
    + rewrite Hp, Hl. cbn [String.eqb Ascii.eqb Bool.eqb negb].
      rewrite <- fetchAll_run.
      match goal with
      | |- context [fetchAll env ?c ?s0] =>
          destruct (fetchAll_failure env c s0 Hf) as (m & calls & E & _ & _);
          rewrite E
      end.
      repeat split; reflexivity.
Qed.

End SuccessFacts.

(** ** [trim] *)

Lemma trimStart_nil_blank (q : JsString) :
  trimStart q = [] -> forallb isWhiteSpace q = true.
Proof.
  induction q as [ | c q IH]; cbn [trimStart forallb]; [ reflexivity | ].
  destruct (isWhiteSpace c); [ exact IH | discriminate ].
Qed.

Lemma trimStart_head (q : JsString) (c : N) (rest : JsString) :
  trimStart q = c :: rest -> isWhiteSpace c = false.
Proof.
  induction q as [ | c0 q IH]; cbn [trimStart]; [ discriminate | ].
  destruct (isWhiteSpace c0) eqn:E; [ exact IH | ].
  intro H. injection H as <- _. exact E.
Qed.

Lemma trimStart_fixed (q : JsString) (c : N) (rest : JsString) :
  isWhiteSpace c = false -> trimStart (c :: rest) = c :: rest.
Proof. intro H. cbn [trimStart]. rewrite H. reflexivity. Qed.

Lemma trimStart_suffix (q : JsString) :
  exists blanks : JsString,
    q = blanks ++ trimStart q /\ forallb isWhiteSpace blanks = true.
Proof.
  induction q as [ | c q (blanks & E & Hb)]; cbn [trimStart].
  - exists []. split; reflexivity.
  - destruct (isWhiteSpace c) eqn:Hc.
    + exists (c :: blanks). cbn [app forallb]. rewrite Hc, Hb.
      split; [ congruence | reflexivity ].
    + exists []. split; reflexivity.
Qed.

Lemma trimStart_idempotent (q : JsString) :
  trimStart (trimStart q) = trimStart q.
Proof.
  destruct (trimStart q) as [ | c rest] eqn:E; [ reflexivity | ].
  apply (trimStart_fixed q), (trimStart_head q c rest E).
Qed.

(** The last code unit survives [trimStart] when it is not white space. *)
Lemma trimStart_snoc (q : JsString) (c : N) :
  isWhiteSpace c = false ->
  trimStart (q ++ [c]) = trimStart q ++ [c].
Proof.
  intro Hc. induction q as [ | c0 q IH]; cbn [trimStart app].
  - rewrite Hc. reflexivity.
  - destruct (isWhiteSpace c0); [ exact IH | reflexivity ].
Qed.

Lemma trim_nil_iff (q : JsString) :
  trim q = [] <-> forallb isWhiteSpace q = true.
Proof.
  split; [ | apply trim_blank ].
  unfold trim, trimEnd. intro H.
  apply (f_equal (@rev N)) in H. rewrite rev_involutive in H. cbn in H.
  apply trimStart_nil_blank in H.
  rewrite forallb_forall in H.
  destruct (trimStart q) as [ | c rest] eqn:E.
  - apply trimStart_nil_blank, E.
  - pose proof (trimStart_head q c rest E) as Hc.
    rewrite (H c) in Hc; [ discriminate | ].
    apply -> in_rev. left. reflexivity.
Qed.

(** [trim] keeps the middle of the string: it only removes white space
    at both ends, what it returns neither starts nor ends with white
    space, and trimming twice changes nothing more. *)
Theorem trim_spec (q : JsString) :
  (exists before after : JsString,
      q = before ++ trim q ++ after /\
      forallb isWhiteSpace before = true /\
      forallb isWhiteSpace after = true) /\
  (forall c rest, trim q = c :: rest -> isWhiteSpace c = false) /\
  (forall c front, trim q = front ++ [c] -> isWhiteSpace c = false) /\
  trim (trim q) = trim q /\
  (trim q = [] <-> forallb isWhiteSpace q = true).
Proof.
  assert (Hend : forall c front,
             trim q = front ++ [c] -> isWhiteSpace c = false).
  { unfold trim, trimEnd. intros c front H.
    apply (f_equal (@rev N)) in H.
    rewrite rev_involutive, rev_app_distr in H. cbn in H.
    exact (trimStart_head _ _ _ H). }
  assert (Hstart : forall c rest, trim q = c :: rest -> isWhiteSpace c = false).
  { unfold trim, trimEnd. intros c rest H.
    destruct (trimStart_suffix (rev (trimStart q))) as (blanks & E & Hb).
    apply (f_equal (@rev N)) in E. rewrite rev_involutive, rev_app_distr in E.
    rewrite H in E.
    destruct (trimStart q) as [ | c0 rest0] eqn:Eq; [ discriminate | ].
    cbn in E. injection E as -> _.
    exact (trimStart_head q _ _ Eq). }
  split; [ | split; [ exact Hstart | split; [ exact Hend | split ] ] ].
  - destruct (trimStart_suffix q) as (before & E1 & Hb1).
    destruct (trimStart_suffix (rev (trimStart q))) as (after & E2 & Hb2).
    exists before, (rev after). split; [ | split; [ exact Hb1 | ] ].
    + unfold trim, trimEnd.
      apply (f_equal (@rev N)) in E2.
      rewrite rev_involutive, rev_app_distr in E2.
      rewrite <- E2. exact E1.
    + rewrite forallb_forall in *. intros c Hc. apply Hb2, in_rev, Hc.
  - destruct (trim q) as [ | c rest] eqn:E; [ reflexivity | ].
    destruct (@exists_last _ (c :: rest)) as (front & z & Ez); [ discriminate | ].
    pose proof (Hstart c rest eq_refl) as Hc.
    pose proof (Hend z front Ez) as Hz.
    unfold trim at 1, trimEnd.
    rewrite (trimStart_fixed q c rest Hc), Ez, rev_app_distr. cbn [rev app].
    rewrite (trimStart_fixed q z (rev front) Hz).
    cbn [rev]. rewrite rev_involutive. reflexivity.
  - apply trim_nil_iff.
Qed.

(** ** The calls of the handlers *)

Section CallFacts.

Context `{runtime : DateRuntime} (env : Env).

(** The calls of [fetchAll] do not depend on the state: none without a
    key, the two fetches otherwise. *)
Lemma fetchAll_calls (c : Coords) (s : State) :
  callsOf (fetchAll env c s)
  = if canFetch env
    then [ Fetch (urlByCoords env Current (lat c) (lon c));
           Fetch (urlByCoords env Forecast (lat c) (lon c)) ]
    else [].
Proof.
  rewrite fetchAll_run. unfold fetchAll_table. cbv zeta.
  destruct (canFetch env); cbn [negb]; [ | reflexivity ].
  destruct (fetch env (urlByCoords env Current (lat c) (lon c)))
    as [[[cData | r] | [m | r]] | r];
    destruct (fetch env (urlByCoords env Forecast (lat c) (lon c)))
      as [[[fData | r'] | [m' | r']] | r'];
    reflexivity.
Qed.

(** The calls of [searchByCity] depend on the state through the query
    only. *)
Lemma searchByCity_calls_query (s s' : State) :
  query s' = query s ->
  callsOf (searchByCity env s') = callsOf (searchByCity env s).
Proof.
  intro Hq. rewrite !searchByCity_run. unfold searchByCity_table.
  rewrite Hq. cbv zeta.
  destruct (truthy (trim (query s))); cbn [negb]; [ | reflexivity ].
  destruct (fetch env (urlByCity env (query s)))
    as [[[cData | r] | [m | r]] | r]; try reflexivity.
  destruct (fetch env (urlByCoords env Forecast
                         (lat (WeatherData.coord cData))
                         (lon (WeatherData.coord cData))))
    as [[[fData | r'] | [m' | r']] | r']; reflexivity.
Qed.

(** The geolocation flow asks before it reads and reads before it
    fetches: the permission request is its first call; the position is
    read exactly when the permission was granted; and a fetch is made
    exactly when, besides, the position was obtained and the key is
    configured. *)
Theorem initByGeolocation_call_order (s : State) :
  hd_error (callsOf (initByGeolocation env s))
  = Some RequestForegroundPermissions /\
  (In GetCurrentPosition (callsOf (initByGeolocation env s)) <->
   requestForegroundPermissionsAsync env = Resolved "granted"%string) /\
  ((exists url, In (Fetch url) (callsOf (initByGeolocation env s))) <->
   requestForegroundPermissionsAsync env = Resolved "granted"%string /\
   (exists location, getCurrentPositionAsync env = Resolved location) /\
   canFetch env = true).
Proof.
  rewrite initByGeolocation_run. unfold initByGeolocation_table. cbv zeta.
  destruct (requestForegroundPermissionsAsync env) as [status | r].
  - destruct (String.eqb_spec status "granted") as [-> | Hs]; cbn [negb].
    + destruct (getCurrentPositionAsync env) as [location | r].
      * rewrite <- fetchAll_run.
        unfold callsOf at 1 2 3. cbn [snd].
        change (snd (fetchAll env ?c ?s0)) with (callsOf (fetchAll env c s0)).
        rewrite fetchAll_calls.
        destruct (canFetch env); cbn.
        -- split; [ reflexivity | ]. split; [ tauto | ].
           split; [ intros _; eauto | intros _; eexists; right; right; left; reflexivity ].
        -- split; [ reflexivity | ]. split; [ tauto | ].
           split; [ intros (url & [H | [H | []]]); discriminate
                  | intros (_ & _ & H); discriminate ].
      * cbn. split; [ reflexivity | ]. split; [ tauto | ].
        split; [ intros (url & [H | [H | []]]); discriminate
               | intros (_ & (l & H) & _); discriminate ].
    + cbn. split; [ reflexivity | ].
      split; [ split; [ intros [H | []]; discriminate
                      | intro H; injection H as H; contradiction ] | ].
      split; [ intros (url & [H | []]); discriminate
             | intros (H & _); injection H as H; contradiction ].
  - cbn. split; [ reflexivity | ].
    split; [ split; [ intros [H | []]; discriminate | discriminate ] | ].
    split; [ intros (url & [H | []]); discriminate
           | intros (H & _); discriminate ].
Qed.


(** What a refresh repeats.  With coordinates stored it fetches by them
    and never asks for the permission or the position again; without
    coordinates it repeats the city search of the query in the box; with
    neither it does nothing. *)
Theorem onRefresh_calls (s : State) :
  (forall c : Coords,
      coords s = Some c ->
      callsOf (onRefresh env s)
      = if canFetch env
        then [ Fetch (urlByCoords env Current (lat c) (lon c));
               Fetch (urlByCoords env Forecast (lat c) (lon c)) ]
        else []) /\
  (coords s = None ->
   query s <> [] ->
   callsOf (onRefresh env s) = callsOf (searchByCity env s)) /\
  (coords s = None ->
   query s = [] ->
   onRefresh env s = (Returned tt, withRefreshing false s, [])).
Proof.
  split; [ | split ].
  - intros c Hc. rewrite onRefresh_run. unfold onRefresh_table. rewrite Hc.
    cbv zeta. rewrite <- fetchAll_run. unfold callsOf at 1. cbn [snd].
    apply fetchAll_calls.
  - intros Hc Hq. rewrite onRefresh_run. unfold onRefresh_table. rewrite Hc.
    cbv zeta. destruct (query s) as [ | c q] eqn:E; [ congruence | ].
    cbn [truthy negb]. rewrite <- searchByCity_run.
    unfold callsOf at 1. cbn [snd].
    apply searchByCity_calls_query. reflexivity.
  - intros Hc Hq. rewrite onRefresh_run. unfold onRefresh_table.
    rewrite Hc, Hq. cbn. destruct s; reflexivity.
Qed.

End CallFacts.

Section RefreshFacts.

Context `{runtime : DateRuntime}.


End RefreshFacts.

(** ** What holds between two events *)

Ltac state_simpl :=
  cbn [loading refreshing error theme infoModalVisible units query coords
       cityLabel current forecast hourlyForecast
       withLoading withRefreshing withError withUnits withCoords withCityLabel
       withCurrent withForecast withHourlyForecast withTheme
       withInfoModalVisible withQuery storeWeather fst snd stateOf callsOf].

Section InvariantFacts.

Context `{runtime : DateRuntime}.

Lemma compactForecast_wellFormed (items : ForecastAPIList) :
  forecastWellFormed (compactForecast items).
Proof.
  split.
  - rewrite compactForecast_unfold, length_map. apply firstn_le_length.
  - rewrite compactForecast_timestamps.
    pose proof (StronglySorted_firstn _ 5 _ (sortedBuckets_strict items)) as Hs.
    induction Hs as [ | b l Hs IH Hb]; cbn; constructor.
    + exact IH.
    + rewrite Forall_forall in *. intros t Ht.
      apply in_map_iff in Ht. destruct Ht as (b' & <- & Hb').
      apply Hb, Hb'.
Qed.

Lemma processHourlyForecast_wellFormed (items : ForecastAPIList) :
  hourlyWellFormed (processHourlyForecast items).
Proof.
  unfold processHourlyForecast.
  destruct (List.length items =? 0)%nat; [ exact I | ].
  destruct (Nat.ltb_spec (List.length (firstn 8 items)) 2) as [ | Hlen];
    [ exact I | ].
  cbn [hourlyWellFormed].
  exists {| data := map roundedTemp (firstn 8 items) |}.
  cbn [datasets labels data icons].
  split; [ reflexivity | ].
  rewrite !length_map. split; [ | split; reflexivity ].
  split; [ exact Hlen | ]. rewrite length_firstn. apply Nat.le_min_l.
Qed.

Lemma fetchAll_settled (env : Env) (c : Coords) (s : State) :
  settled s -> settled (stateOf (fetchAll_table env c s)) /\
               loading (stateOf (fetchAll_table env c s)) = loading s /\
               refreshing (stateOf (fetchAll_table env c s)) = refreshing s.
Proof.
  intros (Hu & Ht & Hf & Hh & Hc).
  unfold fetchAll_table. cbv zeta.
  destruct (canFetch env); cbn [negb];
    [ | split; [ unfold settled; state_simpl; tauto | split; reflexivity ] ].
  destruct (fetch env (urlByCoords env Current (lat c) (lon c)))
    as [[[cData | r] | [m | r]] | r];
    destruct (fetch env (urlByCoords env Forecast (lat c) (lon c)))
      as [[[fData | r'] | [m' | r']] | r'];
    try (split; [ unfold settled; state_simpl; tauto | split; reflexivity ]).
  split; [ | split; reflexivity ].
  unfold settled. state_simpl.
  split; [ exact Hu | ]. split; [ exact Ht | ].
  split; [ apply compactForecast_wellFormed | ].
  split; [ apply processHourlyForecast_wellFormed | discriminate ].
Qed.

Lemma settled_invariant (s : State) :
  loading s = false -> refreshing s = false -> settled s ->
  StateInvariant s.
Proof. intros Hl Hr (Hu & Ht & Hf & Hh & Hc). constructor; assumption. Qed.

Lemma invariant_settled (s : State) : StateInvariant s -> settled s.
Proof. intros [Hl Hr Hu Ht Hf Hh Hc]. unfold settled. tauto. Qed.

Lemma initByGeolocation_settled (env : Env) (s : State) :
  settled s ->
  settled (stateOf (initByGeolocation env s)) /\
  loading (stateOf (initByGeolocation env s)) = false /\
  refreshing (stateOf (initByGeolocation env s)) = refreshing s.
Proof.
  intro Hs. pose proof Hs as (Hu & Ht & Hf & Hh & Hc).
  rewrite initByGeolocation_run. unfold initByGeolocation_table. cbv zeta.
  destruct (requestForegroundPermissionsAsync env) as [status | r];
    [ | split; [ unfold settled; state_simpl; tauto | split; reflexivity ] ].
  destruct (negb (String.eqb status "granted"));
    [ split; [ unfold settled; state_simpl; tauto | split; reflexivity ] | ].
  destruct (getCurrentPositionAsync env) as [location | r];
    [ | split; [ unfold settled; state_simpl; tauto | split; reflexivity ] ].
  match goal with
  | |- context [fetchAll_table env ?c ?s0] =>
      assert (H0 : settled s0) by (unfold settled; state_simpl; tauto);
      destruct (fetchAll_settled env c s0 H0) as (H1 & _ & H3);
      revert H1 H3;
      generalize (fetchAll_table env c s0)
  end.
  intros run H1 H3. state_simpl.
  split; [ | split; [ reflexivity | exact H3 ] ].
  destruct H1 as (Hu' & Ht' & Hf' & Hh' & Hc').
  unfold settled. state_simpl. tauto.
Qed.

Lemma searchByCity_settled (env : Env) (s : State) :
  settled s ->
  settled (stateOf (searchByCity env s)) /\
  (loading s = false -> loading (stateOf (searchByCity env s)) = false) /\
  refreshing (stateOf (searchByCity env s)) = refreshing s.
Proof.
  intro Hs. pose proof Hs as (Hu & Ht & Hf & Hh & Hc).
  rewrite searchByCity_run. unfold searchByCity_table. cbv zeta.
  destruct (negb (truthy (trim (query s))));
    [ split; [ exact Hs | split; [ tauto | reflexivity ] ] | ].
  destruct (fetch env (urlByCity env (query s)))
    as [[[cData | r] | [m | r]] | r];
    try (split; [ unfold settled; state_simpl; tauto
                | split; [ reflexivity | reflexivity ] ]).
  destruct (fetch env (urlByCoords env Forecast
                         (lat (WeatherData.coord cData))
                         (lon (WeatherData.coord cData))))
    as [[[fData | r'] | [m' | r']] | r'];
    (split; [ | split; [ reflexivity | reflexivity ] ]);
    unfold settled; state_simpl;
    (split; [ exact Hu | ]); (split; [ exact Ht | ]);
    try (split; [ exact Hf | split; [ exact Hh | discriminate ] ]).
  split; [ apply compactForecast_wellFormed | ].
  split; [ apply processHourlyForecast_wellFormed | discriminate ].
Qed.

Lemma onRefresh_settled (env : Env) (s : State) :
  settled s -> loading s = false ->
  settled (stateOf (onRefresh env s)) /\
  loading (stateOf (onRefresh env s)) = false /\
  refreshing (stateOf (onRefresh env s)) = false.
Proof.
  intros Hs Hl. pose proof Hs as (Hu & Ht & Hf & Hh & Hc).
  rewrite onRefresh_run. unfold onRefresh_table. cbv zeta.
  destruct (coords s) as [c | ].
  - match goal with
    | |- context [fetchAll_table env c ?s0] =>
        assert (H0 : settled s0) by (unfold settled; state_simpl; tauto);
        destruct (fetchAll_settled env c s0 H0) as (H1 & _ & _);
        revert H1;
        generalize (fetchAll_table env c s0)
    end.
    intros run H1. state_simpl.
    split; [ | split; reflexivity ].
    destruct H1 as (Hu' & Ht' & Hf' & Hh' & Hc').
    unfold settled. state_simpl. tauto.
  - destruct (negb (truthy (query s))).
    + state_simpl. split; [ | split; [ exact Hl | reflexivity ] ].
      unfold settled. state_simpl. tauto.
    + rewrite <- searchByCity_run.
      match goal with
      | |- context [searchByCity env ?s0] =>
          assert (H0 : settled s0) by (unfold settled; state_simpl; tauto);
          destruct (searchByCity_settled env s0 H0) as (H1 & _ & _);
          revert H1;
          generalize (searchByCity env s0)
      end.
      intros run H1. state_simpl.
      split; [ | split; reflexivity ].
      destruct H1 as (Hu' & Ht' & Hf' & Hh' & Hc').
      unfold settled. state_simpl. tauto.
Qed.

(** Every event keeps the invariant. *)
Lemma dispatch_invariant (env : Env) (ev : UserEvent) (s : State) :
  StateInvariant s -> StateInvariant (stateOf (dispatch env ev s)).
Proof.
  intro Hinv. pose proof (invariant_settled s Hinv) as Hs.
  destruct Hinv as [Hl Hr Hu Ht Hf Hh Hc].
  destruct ev as [[ | | | ] | text | | | ]; cbn [dispatch handlerOf].
  - destruct (initByGeolocation_settled env s Hs) as (H1 & H2 & H3).
    apply settled_invariant; congruence.
  - destruct (searchByCity_settled env s Hs) as (H1 & H2 & H3).
    apply settled_invariant; [ exact (H2 Hl) | congruence | exact H1 ].
  - destruct (onRefresh_settled env s Hs Hl) as (H1 & H2 & H3).
    apply settled_invariant; assumption.
  - constructor; unfold toggleUnits, setUnits, modify; state_simpl;
      try assumption.
    destruct (String.eqb (units s) "metric"); auto.
  - constructor; unfold setQuery, modify; state_simpl; assumption.
  - constructor; unfold switchTheme, setTheme, bind, get, modify; state_simpl;
      try assumption.
    destruct (isDark s); auto.
  - constructor; unfold setInfoModalVisible, modify; state_simpl; assumption.
  - constructor; unfold setInfoModalVisible, modify; state_simpl; assumption.
Qed.

Lemma initialState_settled : settled initialState.
Proof.
  unfold settled, initialState. state_simpl.
  split; [ left; reflexivity | ]. split; [ left; reflexivity | ].
  split; [ split; [ cbn; lia | constructor ] | ].
  split; [ exact I | ]. intros _. split; reflexivity.
Qed.

Lemma reachable_settled (s : State) :
  Reachable s -> StateInvariant s.
Proof.
  induction 1 as [env | env s screen ev _ IH _ _].
  - destruct (initByGeolocation_settled env initialState initialState_settled)
      as (H1 & H2 & H3).
    apply settled_invariant; [ exact H2 | exact H3 | exact H1 ].
  - apply dispatch_invariant, IH.
Qed.

(** Between two events the screen is never busy, the unit mode and the
    theme are one of their two values, the stored forecast has at most
    five entries in strictly ascending order of time, the stored hourly
    series has one dataset and two to eight aligned points, and there is
    no forecast without current conditions. *)
Theorem reachable_invariant (s : State) :
  Reachable s ->
  loading s = false /\
  refreshing s = false /\
  (units s = "metric"%string \/ units s = "imperial"%string) /\
  (theme s = "light"%string \/ theme s = "dark"%string) /\
  (List.length (forecast s) <= 5)%nat /\
  StronglySorted Z.lt (map ForecastItem.dt (forecast s)) /\
  hourlyWellFormed (hourlyForecast s) /\
  (current s = None -> forecast s = [] /\ hourlyForecast s = None).
Proof.
  intro H. destruct (reachable_settled s H) as [Hl Hr Hu Ht [Hf1 Hf2] Hh Hc].
  repeat (split; [ assumption | ]). exact Hc.
Qed.

Lemma StronglySorted_lt_NoDup (l : list Z) :
  StronglySorted Z.lt l -> NoDup l.
Proof.
  induction 1 as [ | x l _ IH Hx]; constructor; [ | exact IH ].
  intro Hin. rewrite Forall_forall in Hx. specialize (Hx x Hin). lia.
Qed.

(** Between two events rendering cannot throw and never gives the
    loading screen.  On the main screen the forecast card has at most
    five rows, whose React keys differ pairwise, and the chart, when
    there is one, has as many temperatures and icons as labels, two to
    eight of them. *)
Theorem render_reachable (s : State) :
  Reachable s ->
  exists screen : Screen,
    render s = Returned screen /\
    screen <> LoadingScreen /\
    forall view : MainView,
      screen = MainScreen view ->
      (List.length (rows view) <= 5)%nat /\
      NoDup (map rowKey (rows view)) /\
      forall c : Chart,
        chart view = Some c ->
        (2 <= List.length (chartLabels c) <= 8)%nat /\
        List.length (chartData c) = List.length (chartLabels c) /\
        List.length (chartIcons c) = List.length (chartLabels c).
Proof.
  intro H. destruct (reachable_settled s H) as [Hl Hr Hu Ht [Hf1 Hf2] Hh Hc].
  assert (Hmain : exists view,
             mainScreen s = Returned (MainScreen view) /\
             (List.length (rows view) <= 5)%nat /\
             NoDup (map rowKey (rows view)) /\
             forall c : Chart,
               chart view = Some c ->
               (2 <= List.length (chartLabels c) <= 8)%nat /\
               List.length (chartData c) = List.length (chartLabels c) /\
               List.length (chartIcons c) = List.length (chartLabels c)).
  { assert (Hrows : forall ch,
               (List.length (rows (renderMain s ch)) <= 5)%nat /\
               NoDup (map rowKey (rows (renderMain s ch)))).
    { intro ch. cbn [rows renderMain]. rewrite length_map, map_map.
      split; [ exact Hf1 | ].
      apply StronglySorted_lt_NoDup. exact Hf2. }
    unfold mainScreen.
    destruct (hourlyForecast s) as [h | ].
    - destruct Hh as (d & Hd & Hlen & Hdata & Hicons).
      unfold renderChart. rewrite Hd.
      eexists. split; [ reflexivity | ].
      split; [ apply Hrows | ]. split; [ apply Hrows | ].
      cbn [chart renderMain]. intros c Ec. injection Ec as <-.
      cbn [chartLabels chartData chartIcons]. rewrite length_map.
      auto.
    - eexists. split; [ reflexivity | ].
      split; [ apply Hrows | ]. split; [ apply Hrows | ].
      cbn [chart renderMain]. discriminate. }
  destruct Hmain as (view & Hv & Hview).
  unfold render. rewrite Hl.
  destruct (error s) as [message | ].
  - destruct (String.eqb message "").
    + exists (MainScreen view). split; [ exact Hv | ].
      split; [ discriminate | ]. intros v Ev. injection Ev as <-. exact Hview.
    + eexists. split; [ reflexivity | ].
      split; [ discriminate | ]. discriminate.
  - exists (MainScreen view). split; [ exact Hv | ].
    split; [ discriminate | ]. intros v Ev. injection Ev as <-. exact Hview.
Qed.

End InvariantFacts.

(** ** The chart rounds twice *)




Section ChartFacts.

Context `{runtime : DateRuntime}.


End ChartFacts.

(** The bound is reached: half a degree Celsius is 33 °F on the card
    and 34 °F on the chart. *)
Example chart_one_degree_off :
  displayTemp "imperial" (1 # 2) = 33 /\
  displayTemp "imperial" (inject_Z (Math.round (1 # 2))) = 34.
Proof. split; reflexivity. Qed.

(** ** The two switches *)

Lemma State_eta (s : State) :
  {| loading := loading s; refreshing := refreshing s; error := error s;
     theme := theme s; infoModalVisible := infoModalVisible s;
     units := units s; query := query s; coords := coords s;
     cityLabel := cityLabel s; current := current s;
     forecast := forecast s; hourlyForecast := hourlyForecast s |} = s.
Proof. destruct s; reflexivity. Qed.

(** Each switch has two positions: whatever the cell held, one flip
    brings it to one of its two values, and from there two flips bring the
    whole state back. *)
Theorem switches_flip (s : State) :
  (units (stateOf (toggleUnits s)) = "metric"%string \/
   units (stateOf (toggleUnits s)) = "imperial"%string) /\
  (theme (stateOf (switchTheme s)) = "light"%string \/
   theme (stateOf (switchTheme s)) = "dark"%string) /\
  (units s = "metric"%string \/ units s = "imperial"%string ->
   stateOf (toggleUnits (stateOf (toggleUnits s))) = s) /\
  (theme s = "light"%string \/ theme s = "dark"%string ->
   stateOf (switchTheme (stateOf (switchTheme s))) = s).
Proof.
  unfold toggleUnits, setUnits, switchTheme, setTheme, isDark, bind, get, modify,
    stateOf.
  cbn [fst snd units theme withUnits withTheme].
  split; [ destruct (String.eqb (units s) "metric"); auto | ].
  split; [ destruct (String.eqb (theme s) "dark"); auto | ].
  split.
  - intros [E | E]; rewrite E; cbn [String.eqb Ascii.eqb Bool.eqb];
      unfold withUnits; cbn [loading refreshing error theme infoModalVisible
        units query coords cityLabel current forecast hourlyForecast];
      rewrite <- E; apply State_eta.
  - intros [E | E]; rewrite E; cbn [String.eqb Ascii.eqb Bool.eqb];
      unfold withTheme; cbn [loading refreshing error theme infoModalVisible
        units query coords cityLabel current forecast hourlyForecast];
      rewrite <- E; apply State_eta.
Qed.

(** ** What an event leaves alone *)

Section FrameFacts.

Context `{runtime : DateRuntime} (env : Env).

Lemma fetchAll_settings (c : Coords) (s : State) :
  sameSettings s (stateOf (fetchAll_table env c s)).
Proof.
  unfold fetchAll_table, sameSettings. cbv zeta.
  destruct (canFetch env); cbn [negb]; [ | repeat split ].
  destruct (fetch env (urlByCoords env Current (lat c) (lon c)))
    as [[[cData | r] | [m | r]] | r];
    destruct (fetch env (urlByCoords env Forecast (lat c) (lon c)))
      as [[[fData | r'] | [m' | r']] | r'];
    repeat split.
Qed.

Lemma searchByCity_settings (s : State) :
  sameSettings s (stateOf (searchByCity_table env s)).
Proof.
  unfold searchByCity_table, sameSettings. cbv zeta.
  destruct (negb (truthy (trim (query s)))); [ repeat split | ].
  repeat match goal with
         | |- context [match ?x with _ => _ end] => destruct x
         end; repeat split.
Qed.

(** The events that load data leave the search box, the theme, the
    modal and the unit mode as they were; every other event makes no
    call and leaves the stored weather data, the error and the busy
    flags as they were. *)
Theorem events_frame (ev : UserEvent) (s : State) :
  (isLoad ev = true -> sameSettings s (stateOf (dispatch env ev s))) /\
  (isLoad ev = false ->
   callsOf (dispatch env ev s) = [] /\
   sameData s (stateOf (dispatch env ev s)) /\
   loading (stateOf (dispatch env ev s)) = loading s /\
   refreshing (stateOf (dispatch env ev s)) = refreshing s /\
   error (stateOf (dispatch env ev s)) = error s).
Proof.
  destruct ev as [[ | | | ] | text | | | ]; cbn [isLoad dispatch handlerOf];
    (split; [ intro Hload | intro Hload ]); try discriminate;
    try (unfold sameData; repeat split; reflexivity).
  - rewrite initByGeolocation_run. unfold initByGeolocation_table. cbv zeta.
    destruct (requestForegroundPermissionsAsync env) as [status | r];
      [ | repeat split ].
    destruct (negb (String.eqb status "granted")); [ repeat split | ].
    destruct (getCurrentPositionAsync env) as [location | r];
      [ | repeat split ].
    match goal with
    | |- context [fetchAll_table env ?c ?s0] =>
        pose proof (fetchAll_settings c s0) as H;
        revert H; generalize (fetchAll_table env c s0)
    end.
    intros run H. exact H.
  - rewrite searchByCity_run. apply searchByCity_settings.
  - rewrite onRefresh_run. unfold onRefresh_table. cbv zeta.
    destruct (coords s) as [c | ].
    + match goal with
      | |- context [fetchAll_table env c ?s0] =>
          pose proof (fetchAll_settings c s0) as H;
          revert H; generalize (fetchAll_table env c s0)
      end.
      intros run H. exact H.
    + destruct (negb (truthy (query s))); [ repeat split | ].
      match goal with
      | |- context [searchByCity_table env ?s0] =>
          pose proof (searchByCity_settings s0) as H;
          revert H; generalize (searchByCity_table env s0)
      end.
      intros run H. exact H.
Qed.

End FrameFacts.

(** ** The first entry of the compacted forecast *)

Section HeadFacts.

Context `{runtime : DateRuntime}.

Lemma compactForecast_cons (items : ForecastAPIList)
      (o : ForecastItem.t) (rest : list ForecastItem.t) :
  compactForecast items = o :: rest ->
  exists b0 tl, sortedBuckets items = b0 :: tl /\ o = toForecastItem b0.
Proof.
  rewrite compactForecast_unfold.
  destruct (sortedBuckets items) as [ | b0 tl]; [ discriminate | ].
  cbn [firstn map]. intro E. injection E as <- _. eauto.
Qed.

(** The first entry is the one the card reads its "Máx / Mín" from.
    The output is empty only for the empty input; otherwise its first
    entry is timed before every other entry and no later than the first
    sample of any day of the input, and on a consistent calendar its day
    is the earliest day of the input. *)
Theorem compactForecast_head (items : ForecastAPIList) :
  (compactForecast items = [] <-> items = []) /\
  (forall (o : ForecastItem.t) (rest : list ForecastItem.t),
      compactForecast items = o :: rest ->
      (forall o', In o' rest -> ForecastItem.dt o < ForecastItem.dt o') /\
      (forall k first more,
          samplesOf k items = first :: more ->
          ForecastItem.dt o <= ForecastAPIItem.dt first) /\
      (calendarConsistent items = true ->
       forall item,
         In item items ->
         dayKeyOf item = entryDay o \/
         dayBefore items (entryDay o) (dayKeyOf item) = true)).
Proof.
  assert (Hbucket : forall k first more,
             samplesOf k items = first :: more ->
             exists b, In (k, b) (groupByDay items) /\
                       Bucket.dt b = ForecastAPIItem.dt first).
  { intros k first more Hs.
    pose proof (groupByDay_get items k) as Hg. rewrite Hs in Hg.
    eexists. split; [ apply byDay_get_In, Hg | reflexivity ]. }
  assert (Hhead : forall b0 tl k b,
             sortedBuckets items = b0 :: tl ->
             In (k, b) (groupByDay items) ->
             b = b0 \/ Bucket.dt b0 < Bucket.dt b).
  { intros b0 tl k b Hsorted Hin.
    destruct (groupByDay_bucket items k b Hin) as (_ & _ & _ & _ & Ek).
    rewrite <- Ek in Hin. apply sortedBuckets_In in Hin.
    pose proof (sortedBuckets_strict items) as Hs.
    rewrite Hsorted in Hs, Hin. inversion Hs as [ | ? ? _ Hall]; subst.
    destruct Hin as [-> | Hin]; [ left; reflexivity | right ].
    rewrite Forall_forall in Hall. exact (Hall b Hin). }
  split.
  - split.
    + intro E. destruct items as [ | x items]; [ reflexivity | exfalso ].
      assert (Hk : In (dayKeyOf x) (map fst (groupByDay (x :: items)))).
      { apply groupByDay_keys. exists x. split; [ left | ]; reflexivity. }
      apply in_map_iff in Hk. destruct Hk as ([k b] & _ & Hin).
      destruct (groupByDay_bucket _ k b Hin) as (_ & _ & _ & _ & Ek).
      rewrite <- Ek in Hin. apply sortedBuckets_In in Hin.
      rewrite compactForecast_unfold in E.
      destruct (sortedBuckets (x :: items)); [ destruct Hin | discriminate ].
    + intros ->. reflexivity.
  - intros o rest E.
    destruct (compactForecast_cons items o rest E) as (b0 & tl & Hsorted & ->).
    split; [ | split ].
    + intros o' Ho'.
      pose proof (compactForecast_wellFormed items) as [_ Hs].
      rewrite E in Hs. cbn [map] in Hs.
      inversion Hs as [ | ? ? _ Hall]; subst.
      rewrite Forall_forall in Hall. apply Hall, in_map, Ho'.
    + intros k first more Hs.
      destruct (Hbucket k first more Hs) as (b & Hin & Hdt).
      cbn [ForecastItem.dt toForecastItem]. rewrite <- Hdt.
      destruct (Hhead b0 tl k b Hsorted Hin) as [-> | Hlt]; lia.
    + intros Hcal item Hitem.
      assert (Hk : In (dayKeyOf item) (map fst (groupByDay items))).
      { apply groupByDay_keys. exists item. split; [ exact Hitem | reflexivity ]. }
      apply in_map_iff in Hk. destruct Hk as ([k b] & Ek & Hin).
      cbn in Ek. subst k.
      assert (Hin0 : In (bucketDay b0, b0) (groupByDay items)).
      { apply sortedBuckets_In. rewrite Hsorted. left. reflexivity. }
      rewrite entryDay_toForecastItem.
      destruct (Hhead b0 tl _ b Hsorted Hin) as [-> | Hlt].
      * left.
        destruct (groupByDay_bucket items _ b0 Hin) as (_ & _ & _ & _ & E0).
        symmetry. exact E0.
      * right.
        rewrite (dayBefore_buckets items _ _ b0 b Hcal Hin0 Hin).
        apply Z.ltb_lt, Hlt.
Qed.

End HeadFacts.

(** ** The handlers on the sample devices *)

Lemma initByGeolocation_success_witness :
  requestForegroundPermissionsAsync onlineEnv = Resolved "granted"%string /\
  canFetch onlineEnv = true /\
  cityLabel (stateOf (initByGeolocation onlineEnv initialState))
  = WeatherData.name sampleWeather /\
  forecast (stateOf (initByGeolocation onlineEnv initialState))
  = compactForecast sampleForecast.
Proof.
  assert (Hp : requestForegroundPermissionsAsync onlineEnv
               = Resolved "granted"%string) by reflexivity.
  assert (Hk : canFetch onlineEnv = true) by reflexivity.
  split; [ exact Hp | ]. split; [ exact Hk | ].
  destruct (initByGeolocation_success onlineEnv initialState
              {| latitude := -(33 # 2); longitude := -(681 # 10) |}
              sampleWeather {| ForecastData.list := Some sampleForecast |}
              Hp eq_refl Hk eq_refl eq_refl)
    as (_ & _ & _ & _ & _ & Hlabel & Hforecast & _).
  split; [ exact Hlabel | exact Hforecast ].
Defined.



Lemma failed_load_keeps_data_witness :
  truthy (trim (query (idleState cityQuery))) = true /\
  sameData (idleState cityQuery)
           (stateOf (searchByCity offlineEnv (idleState cityQuery))).
Proof.
  assert (Hq : truthy (trim (query (idleState cityQuery))) = true)
    by reflexivity.
  split; [ exact Hq | ].
  exact (proj1 (proj2 (failed_load_keeps_data offlineEnv (idleState cityQuery)))
               Hq (NetworkFailure "Network request failed")).
Defined.


Lemma onRefresh_calls_witness :
  coords loadedState = Some {| lat := -(33 # 2); lon := -(681 # 10) |} /\
  List.length (callsOf (onRefresh offlineEnv loadedState)) = 2%nat.
Proof.
  assert (Hc : coords loadedState
               = Some {| lat := -(33 # 2); lon := -(681 # 10) |})
    by (vm_compute; reflexivity).
  split; [ exact Hc | ].
  rewrite (proj1 (onRefresh_calls offlineEnv loadedState) _ Hc).
  reflexivity.
Defined.


Lemma reachable_invariant_witness :
  Reachable loadedState /\
  (List.length (forecast loadedState) <= 5)%nat /\
  (current loadedState = None -> forecast loadedState = []).
Proof.
  assert (Hr : Reachable loadedState) by exact (ReachMounted onlineEnv).
  split; [ exact Hr | ].
  destruct (reachable_invariant loadedState Hr)
    as (_ & _ & _ & _ & Hlen & _ & _ & Hnone).
  split; [ exact Hlen | ].
  intro Hcur. exact (proj1 (Hnone Hcur)).
Defined.

Lemma render_reachable_witness :
  Reachable (mounted deniedEnv) /\
  exists screen : Screen,
    render (mounted deniedEnv) = Returned screen /\ screen <> LoadingScreen.
Proof.
  assert (Hr : Reachable (mounted deniedEnv)) by exact (ReachMounted deniedEnv).
  split; [ exact Hr | ].
  destruct (render_reachable (mounted deniedEnv) Hr)
    as (screen & Hrender & Hscreen & _).
  exists screen. split; [ exact Hrender | exact Hscreen ].
Defined.


Lemma switches_flip_witness :
  (units (idleState cityQuery) = "metric"%string \/
   units (idleState cityQuery) = "imperial"%string) /\
  stateOf (toggleUnits (stateOf (toggleUnits (idleState cityQuery))))
  = idleState cityQuery.
Proof.
  assert (Hu : units (idleState cityQuery) = "metric"%string \/
               units (idleState cityQuery) = "imperial"%string)
    by (left; reflexivity).
  split; [ exact Hu | ].
  exact (proj1 (proj2 (proj2 (switches_flip (idleState cityQuery)))) Hu).
Defined.

Lemma events_frame_witness :
  isLoad (Press SearchByCity) = true /\
  sameSettings (idleState cityQuery)
    (stateOf (dispatch onlineEnv (Press SearchByCity) (idleState cityQuery))).
Proof.
  assert (Hl : isLoad (Press SearchByCity) = true) by reflexivity.
  split; [ exact Hl | ].
  exact (proj1 (events_frame onlineEnv (Press SearchByCity)
                             (idleState cityQuery)) Hl).
Defined.

Lemma compactForecast_head_witness :
  exists (o : ForecastItem.t) (rest : list ForecastItem.t),
    compactForecast sampleForecast = o :: rest /\
    forall o' : ForecastItem.t,
      In o' rest -> ForecastItem.dt o < ForecastItem.dt o'.
Proof.
  destruct (compactForecast sampleForecast) as [ | o rest] eqn:E;
    [ vm_compute in E; discriminate E | ].
  exists o, rest. split; [ reflexivity | ].
  exact (proj1 (proj2 (compactForecast_head sampleForecast) o rest E)).
Defined.
